(** * Formula 1 results service: a shallow embedding of the request handlers
    and data-access functions, and the properties of its specification.

    The relational store is modelled as three tables keyed by their primary
    key; a request runs in a session with a unit of work ([pending]) over
    the committed tables ([stored]); every awaited storage round trip may
    raise [SQLAlchemyError], as scheduled by the session's [faults]; a
    commit is refused when it breaks a foreign key of the results, and the
    average over the race times is the one of binary64 arithmetic. *)

From Stdlib Require Import QArith Ascii SpecFloat.
From stdpp Require Import gmap strings list fin_maps sorting pretty.

Local Open Scope string_scope.
Local Open Scope Z_scope.

(** ** Storage rows (app/database/models) *)

(** A calendar date, as stored in [stages.date]. *)
Module datetime.
Record date := Date { year : Z; month : Z; day : Z }.
End datetime.

(** The columns of a row besides its primary key [id], which is the key of
    the table holding the row.  [nullable=True] columns are options; the
    [Float] column [race_time] is read as a rational number, and as the
    binary64 number nearest to it where the store computes with it
    ([float8_of_Q]). *)
Module Stage.
Record t := Build
  { name : string; country : string; date : datetime.date;
    lap_length : Q; attendance : option Z }.

(** A column with the value it is given. *)
Inductive attr :=
| Name (v : string) | Country (v : string) | Date (v : datetime.date)
| Lap_length (v : Q) | Attendance (v : option Z).

Definition setattr (r : t) (a : attr) : t :=
  match a with
  | Name v => Build v (country r) (date r) (lap_length r) (attendance r)
  | Country v => Build (name r) v (date r) (lap_length r) (attendance r)
  | Date v => Build (name r) (country r) v (lap_length r) (attendance r)
  | Lap_length v => Build (name r) (country r) (date r) v (attendance r)
  | Attendance v => Build (name r) (country r) (date r) (lap_length r) v
  end.
End Stage.

Module Stable.
Record t := Build
  { name : string; country : string;
    motor : option string; tire : option string }.

Inductive attr :=
| Name (v : string) | Country (v : string)
| Motor (v : option string) | Tire (v : option string).

Definition setattr (r : t) (a : attr) : t :=
  match a with
  | Name v => Build v (country r) (motor r) (tire r)
  | Country v => Build (name r) v (motor r) (tire r)
  | Motor v => Build (name r) (country r) v (tire r)
  | Tire v => Build (name r) (country r) (motor r) v
  end.
End Stable.

Module Result.
Record t := Build
  { stage_id : Z; stable_id : Z; driver_name : string; race_time : Q;
    laps : Z; pit_stops : option Z; position : option Z }.

Inductive attr :=
| Stage_id (v : Z) | Stable_id (v : Z) | Driver_name (v : string)
| Race_time (v : Q) | Laps (v : Z)
| Pit_stops (v : option Z) | Position (v : option Z).

Definition setattr (r : t) (a : attr) : t :=
  match a with
  | Stage_id v =>
      Build v (stable_id r) (driver_name r) (race_time r) (laps r)
            (pit_stops r) (position r)
  | Stable_id v =>
      Build (stage_id r) v (driver_name r) (race_time r) (laps r)
            (pit_stops r) (position r)
  | Driver_name v =>
      Build (stage_id r) (stable_id r) v (race_time r) (laps r)
            (pit_stops r) (position r)
  | Race_time v =>
      Build (stage_id r) (stable_id r) (driver_name r) v (laps r)
            (pit_stops r) (position r)
  | Laps v =>
      Build (stage_id r) (stable_id r) (driver_name r) (race_time r) v
            (pit_stops r) (position r)
  | Pit_stops v =>
      Build (stage_id r) (stable_id r) (driver_name r) (race_time r)
            (laps r) v (position r)
  | Position v =>
      Build (stage_id r) (stable_id r) (driver_name r) (race_time r)
            (laps r) (pit_stops r) v
  end.
End Result.

(** An ORM object: the primary key together with the other columns. *)
Definition row (A : Type) : Type := Z * A.
Definition id {A} (r : row A) : Z := r.1.
Definition cols {A} (r : row A) : A := r.2.

Record Database := MkDatabase
  { stages : gmap Z Stage.t;
    stables : gmap Z Stable.t;
    results : gmap Z Result.t }.

(** ** Sessions, awaiting and exceptions *)

Inductive exn :=
| HTTPException (status_code : Z) (detail : string)
| SQLAlchemyError.

Inductive outcome (A : Type) :=
| Return (a : A)
| Raise (e : exn).
Arguments Return {A} a.
Arguments Raise {A} e.

(** [stored] is what the database holds, [pending] what the session's unit
    of work shows (flushed at [commit], dropped at [rollback] or when the
    session is closed); [faults] tells, for each coming round trip to the
    store, whether it raises. *)
Record AsyncSession := MkSession
  { stored : Database; pending : Database; faults : list bool }.

Definition Await (A : Type) : Type := AsyncSession → outcome A * AsyncSession.

Definition ret {A} (a : A) : Await A := λ s, (Return a, s).
Definition raise {A} (e : exn) : Await A := λ s, (Raise e, s).
Definition bind {A B} (m : Await A) (k : A → Await B) : Await B :=
  λ s, match m s with
       | (Return a, s') => k a s'
       | (Raise e, s') => (Raise e, s')
       end.

Notation "x <- m ;; k" := (bind m (λ x, k))
  (at level 100, m at next level, right associativity, only parsing).
Notation "m ;; k" := (bind m (λ _, k))
  (at level 100, right associativity, only parsing).

(** [try: m except SQLAlchemyError: h] *)
Definition try_except {A} (m : Await A) (h : Await A) : Await A :=
  λ s, match m s with
       | (Raise SQLAlchemyError, s') => h s'
       | r => r
       end.

(** One round trip to the store: the next entry of [faults] decides whether
    it raises; with no entry left the store answers. *)
Definition round_trip : Await unit :=
  λ s, match faults s with
       | [] => (Return tt, s)
       | b :: fs =>
           let s' := MkSession (stored s) (pending s) fs in
           if b then (Raise SQLAlchemyError, s') else (Return tt, s')
       end.

(** [await db.execute(query)] *)
Definition execute {A} (query : Database → A) : Await A :=
  round_trip ;; λ s, (Return (query (pending s)), s).

(** The foreign keys of [results] ([ForeignKey('stages.id')] and
    [ForeignKey('stables.id')], both [nullable=False]).  The store checks a
    reference when it is written and when the row it names is deleted: at a
    commit, a reference of a Result is accepted when it names a row, or when
    the Result had that reference before and it named no row then either.
    A Stage or Stable that Results still name cannot go: the session would
    set their reference to NULL, which the column refuses. *)
Definition reference_accepted {A} (before after : gmap Z A)
    (old_ref : option Z) (ref : Z) : Prop :=
  is_Some (after !! ref) ∨ (old_ref = Some ref ∧ before !! ref = None).

Definition foreign_keys_accepted (before after : Database) : Prop :=
  map_Forall
    (λ k r,
       reference_accepted (stages before) (stages after)
         (Result.stage_id <$> results before !! k) (Result.stage_id r)
       ∧ reference_accepted (stables before) (stables after)
           (Result.stable_id <$> results before !! k) (Result.stable_id r))
    (results after).

(** What that asks of one Result that is written over: each reference of
    the new row is the one of the old row, or names a stored row. *)
Definition references_accepted (db : Database) (old new : Result.t) : Prop :=
  (Result.stage_id new = Result.stage_id old
   ∨ is_Some (stages db !! Result.stage_id new))
  ∧ (Result.stable_id new = Result.stable_id old
     ∨ is_Some (stables db !! Result.stable_id new)).

#[global] Instance references_accepted_dec db old new :
  Decision (references_accepted db old new).
Proof. unfold references_accepted. apply _. Defined.

#[global] Instance foreign_keys_accepted_dec (before after : Database) :
  Decision (foreign_keys_accepted before after).
Proof. unfold foreign_keys_accepted, reference_accepted. apply _. Defined.

(** [await db.commit()]: the unit of work is flushed, unless the round trip
    raises or the store refuses it for a foreign key ([IntegrityError], a
    [SQLAlchemyError]). *)
Definition commit : Await unit :=
  round_trip ;;
  λ s, if decide (foreign_keys_accepted (stored s) (pending s))
       then (Return tt, MkSession (pending s) (pending s) (faults s))
       else (Raise SQLAlchemyError, s).

(** [await db.rollback()] *)
Definition rollback : Await unit :=
  λ s, (Return tt, MkSession (stored s) (stored s) (faults s)).

(** A change of the unit of work. *)
Definition modify (f : Database → Database) : Await unit :=
  λ s, (Return tt, MkSession (stored s) (f (pending s)) (faults s)).

(** [get_db]: a request gets a session of its own on the database, and what
    the session has not committed is gone when it is closed. *)
Definition dispatch {A} (handler : Await A) (db : Database) (fs : list bool)
  : outcome A * Database :=
  let '(o, s) := handler (MkSession db db fs) in (o, stored s).

(** ** Queries *)

(** [select(Model)]: the rows of a table. *)
Definition select {A} (table : gmap Z A) : list (row A) := map_to_list table.

(** [.scalar_one_or_none()]: [MultipleResultsFound] is a [SQLAlchemyError]. *)
Definition scalar_one_or_none {A} (rows : list A) : Await (option A) :=
  match rows with
  | [] => ret None
  | [x] => ret (Some x)
  | _ => raise SQLAlchemyError
  end.

(** Truth value of what [scalar_one_or_none] gives: an ORM object is true,
    [None] is false. *)
Definition truthy {A} (o : option A) : bool :=
  match o with Some _ => true | None => false end.

(** The identifier the store assigns to a new row: one past the largest
    one in the table (and 1 for an empty table). *)
Definition next_id {A} (table : gmap Z A) : Z :=
  1 + map_fold (λ k _ acc, Z.max k acc) 0 table.

(** ** JSON values and Python dicts *)

Inductive value :=
| VNone
| VInt (z : Z)
| VFloat (q : Q)
| VStr (s : string).

(** A dict display: the items are stored from left to right. *)
Definition dict (items : list (string * value)) : gmap string value :=
  foldl (λ d kv, <[kv.1 := kv.2]> d) ∅ items.

(** Comparison of [Float] columns. *)
#[global] Instance Qlt_decision (x y : Q) : Decision (x < y)%Q.
Proof. unfold Qlt. apply _. Defined.
#[global] Instance Qle_decision (x y : Q) : Decision (x <= y)%Q.
Proof. unfold Qle. apply _. Defined.

(** [str.lower()] on the letters A to Z. *)
Definition ascii_lower (c : Ascii.ascii) : Ascii.ascii :=
  let n := Ascii.N_of_ascii c in
  if ((65 <=? n) && (n <=? 90))%N then Ascii.ascii_of_N (n + 32) else c.

Fixpoint lower (s : string) : string :=
  match s with
  | EmptyString => EmptyString
  | String c s' => String (ascii_lower c) (lower s')
  end.

(** ** Wire schemas (app/schemas) *)

(** A request body is a JSON object.  Validation of a field: a field
    without a default is required, and holds a value of its type (the
    conversions between JSON types that validation also accepts are left
    out). *)
Definition field_int (body : gmap string value) (k : string) : option Z :=
  match body !! k with Some (VInt z) => Some z | _ => None end.

Definition field_float (body : gmap string value) (k : string) : option Q :=
  match body !! k with
  | Some (VFloat q) => Some q
  | Some (VInt z) => Some (inject_Z z)
  | _ => None
  end.

Definition field_str (body : gmap string value) (k : string) : option string :=
  match body !! k with Some (VStr s) => Some s | _ => None end.

(** [str | None = None]: the field may be left out or null. *)
Definition field_str_or_none (body : gmap string value) (k : string)
  : option (option string) :=
  match body !! k with
  | None | Some VNone => Some None
  | Some (VStr s) => Some (Some s)
  | _ => None
  end.

Definition digit (c : Ascii.ascii) : option Z :=
  let n := Z.of_N (Ascii.N_of_ascii c) in
  if (48 <=? n) && (n <=? 57) then Some (n - 48) else None.

Definition is_leap (y : Z) : bool :=
  (y mod 4 =? 0) && (negb (y mod 100 =? 0) || (y mod 400 =? 0)).

Definition days_in_month (y m : Z) : Z :=
  if m =? 2 then (if is_leap y then 29 else 28)
  else if (m =? 4) || (m =? 6) || (m =? 9) || (m =? 11) then 30
  else 31.

(** A date in the form YYYY-MM-DD. *)
Definition parse_date (s : string) : option datetime.date :=
  match s with
  | String y1 (String y2 (String y3 (String y4 (String sep1
    (String m1 (String m2 (String sep2
    (String d1 (String d2 EmptyString))))))))) =>
      a ← digit y1; b ← digit y2; c ← digit y3; d ← digit y4;
      e ← digit m1; f ← digit m2; g ← digit d1; h ← digit d2;
      let y := 1000 * a + 100 * b + 10 * c + d in
      let m := 10 * e + f in
      let dd := 10 * g + h in
      if bool_decide (sep1 = "-"%char) && bool_decide (sep2 = "-"%char)
         && (1 <=? y) && (1 <=? m) && (m <=? 12)
         && (1 <=? dd) && (dd <=? days_in_month y m)
      then Some (datetime.Date y m dd) else None
  | _ => None
  end.

Definition field_date (body : gmap string value) (k : string) : option datetime.date :=
  match body !! k with Some (VStr s) => parse_date s | _ => None end.

Module ResultBase.
Record t := Build
  { driver_name : string; race_time : Q; laps : Z; position : Z;
    pit_stops : Z; stable_id : Z; stage_id : Z }.

(** Validation of a request body against the model; [None] is a
    validation error. *)
Definition validate (body : gmap string value) : option t :=
  driver_name ← field_str body "driver_name";
  race_time ← field_float body "race_time";
  laps ← field_int body "laps";
  position ← field_int body "position";
  pit_stops ← field_int body "pit_stops";
  stable_id ← field_int body "stable_id";
  stage_id ← field_int body "stage_id";
  Some (Build driver_name race_time laps position pit_stops
              stable_id stage_id).
End ResultBase.
Abbreviation ResultCreate := ResultBase.t.

Module StableBase.
Record t := Build
  { name : string; country : string;
    motor : option string; tire : option string }.

Definition validate (body : gmap string value) : option t :=
  name ← field_str body "name";
  country ← field_str body "country";
  motor ← field_str_or_none body "motor";
  tire ← field_str_or_none body "tire";
  Some (Build name country motor tire).
End StableBase.
Abbreviation StableCreate := StableBase.t.

Module StageBase.
Record t := Build
  { name : string; country : string; date : datetime.date;
    attendance : Z; lap_length : Q }.

Definition validate (body : gmap string value) : option t :=
  name ← field_str body "name";
  country ← field_str body "country";
  date ← field_date body "date";
  attendance ← field_int body "attendance";
  lap_length ← field_float body "lap_length";
  Some (Build name country date attendance lap_length).
End StageBase.
Abbreviation StageCreate := StageBase.t.

(** Modelled from the spec: the services import [StageUpdate],
    [StableUpdate] and [ResultUpdate] from the schemas, which do not declare
    them.  They are the partial inputs of [update]: every updatable
    attribute is wrapped in an option, [None] for a field that is not set;
    [items] is what [.dict(exclude_unset=True).items()] yields, the fields
    that are set with their values. *)
Module StageUpdate.
Record t := Build
  { name : option string; country : option string; date : option datetime.date;
    attendance : option (option Z); lap_length : option Q }.

Definition items (u : t) : list Stage.attr :=
  option_list (Stage.Name <$> name u)
  ++ option_list (Stage.Country <$> country u)
  ++ option_list (Stage.Date <$> date u)
  ++ option_list (Stage.Attendance <$> attendance u)
  ++ option_list (Stage.Lap_length <$> lap_length u).
End StageUpdate.

Module StableUpdate.
Record t := Build
  { name : option string; country : option string;
    motor : option (option string); tire : option (option string) }.

Definition items (u : t) : list Stable.attr :=
  option_list (Stable.Name <$> name u)
  ++ option_list (Stable.Country <$> country u)
  ++ option_list (Stable.Motor <$> motor u)
  ++ option_list (Stable.Tire <$> tire u).
End StableUpdate.

Module ResultUpdate.
Record t := Build
  { driver_name : option string; race_time : option Q; laps : option Z;
    position : option (option Z); pit_stops : option (option Z);
    stable_id : option Z; stage_id : option Z }.

Definition items (u : t) : list Result.attr :=
  option_list (Result.Driver_name <$> driver_name u)
  ++ option_list (Result.Race_time <$> race_time u)
  ++ option_list (Result.Laps <$> laps u)
  ++ option_list (Result.Position <$> position u)
  ++ option_list (Result.Pit_stops <$> pit_stops u)
  ++ option_list (Result.Stable_id <$> stable_id u)
  ++ option_list (Result.Stage_id <$> stage_id u).
End ResultUpdate.

(** The storage row built from the validated payload, all of whose fields
    are set. *)
Definition Result_of (result : ResultCreate) : Result.t :=
  {| Result.stage_id := ResultBase.stage_id result;
     Result.stable_id := ResultBase.stable_id result;
     Result.driver_name := ResultBase.driver_name result;
     Result.race_time := ResultBase.race_time result;
     Result.laps := ResultBase.laps result;
     Result.pit_stops := Some (ResultBase.pit_stops result);
     Result.position := Some (ResultBase.position result) |}.

(** The store raises no error during the request. *)
Definition store_ok (fs : list bool) : Prop := Forall (λ b, b = false) fs.

(** ** Table updates of the unit of work *)

Definition set_results (f : gmap Z Result.t → gmap Z Result.t) (db : Database)
  : Database := MkDatabase (stages db) (stables db) (f (results db)).
Definition set_stages (f : gmap Z Stage.t → gmap Z Stage.t) (db : Database)
  : Database := MkDatabase (f (stages db)) (stables db) (results db).
Definition set_stables (f : gmap Z Stable.t → gmap Z Stable.t) (db : Database)
  : Database := MkDatabase (stages db) (f (stables db)) (results db).

(** [db.add(new_result)]: the new row joins the unit of work under the
    identifier the store will give it. *)
Definition add_result (new_result : Result.t) : Await Z :=
  λ s, let k := next_id (results (pending s)) in
       (Return k,
        MkSession (stored s) (set_results <[k := new_result]> (pending s))
                  (faults s)).

(** [await db.refresh(obj)]: reads the row of the object back; a row that
    is gone makes it raise. *)
Definition refresh {A} (table : Database → gmap Z A) (k : Z) : Await (row A) :=
  round_trip ;;
  λ s, match table (pending s) !! k with
       | Some r => (Return (k, r), s)
       | None => (Raise SQLAlchemyError, s)
       end.

(** [for x in xs: body x] *)
Fixpoint for_each {A} (xs : list A) (body : A → Await unit) : Await unit :=
  match xs with
  | [] => ret tt
  | x :: xs' => body x ;; for_each xs' body
  end.

(** ** app/routers/result.py *)

Definition create_result (result : ResultCreate) : Await (row Result.t) :=
  stable_check <-
    execute (λ db, filter (λ r, id r = ResultBase.stable_id result)
                          (select (stables db))) ;;
  stable <- scalar_one_or_none stable_check ;;
  if negb (truthy stable) then
    raise (HTTPException 400 "Invalid stable_id: does not exist")
  else
  stage_check <-
    execute (λ db, filter (λ r, id r = ResultBase.stage_id result)
                          (select (stages db))) ;;
  stage <- scalar_one_or_none stage_check ;;
  if negb (truthy stage) then
    raise (HTTPException 400 "Invalid stage_id: does not exist")
  else
  new_result <- add_result (Result_of result) ;;
  commit ;;
  refresh results new_result.


Definition get_filtered_results (stage_id stable_id : Z)
  : Await (list (row Result.t)) :=
  result <-
    execute (λ db, filter (λ r, Result.stage_id (cols r) = stage_id
                                ∧ Result.stable_id (cols r) = stable_id)
                          (select (results db))) ;;
  let results := result in
  ret results.

(** [select(Result, Stage.name, Stable.name).join(Stage, ...).join(Stable, ...)] *)
Definition join_query (db : Database) : list (row Result.t * string * string) :=
  r ← select (results db);
  stage ← filter (λ s, Result.stage_id (cols r) = id s) (select (stages db));
  stable ← filter (λ t, Result.stable_id (cols r) = id t) (select (stables db));
  [(r, Stage.name (cols stage), Stable.name (cols stable))].

Definition get_results_with_details : Await (list (gmap string value)) :=
  result <- execute join_query ;;
  let results :=
    (λ '(r, stage_name, stable_name),
       dict [("id", VInt (id r));
             ("driver_name", VStr (Result.driver_name (cols r)));
             ("race_time", VFloat (Result.race_time (cols r)));
             ("stage_name", VStr stage_name);
             ("stable_name", VStr stable_name)]) <$> result in
  ret results.

(** [obj.attr = v] on a result of the session. *)
Definition setattr_result (obj : row Result.t) (a : Result.attr) : Await unit :=
  modify (set_results (alter (λ r, Result.setattr r a) (id obj))).

Definition update_laps (race_time_threshold : Q) (new_laps : Z)
  : Await (gmap string value) :=
  result <-
    execute (λ db, filter (λ r, (race_time_threshold
                                 < Result.race_time (cols r))%Q)
                          (select (results db))) ;;
  let results_to_update := result in
  for_each results_to_update
    (λ result, setattr_result result (Result.Laps new_laps)) ;;
  commit ;;
  ret (dict [("message",
              VStr (pretty (length results_to_update) +:+ " results updated."))]).

(** [.order_by(Result.race_time.asc())] and [.desc()] *)
Definition race_time_asc (a b : row Result.t) : Prop :=
  (Result.race_time (cols a) <= Result.race_time (cols b))%Q.
Definition race_time_desc (a b : row Result.t) : Prop :=
  (Result.race_time (cols b) <= Result.race_time (cols a))%Q.

#[global] Instance race_time_asc_dec a b : Decision (race_time_asc a b).
Proof. unfold race_time_asc. apply _. Defined.
#[global] Instance race_time_desc_dec a b : Decision (race_time_desc a b).
Proof. unfold race_time_desc. apply _. Defined.

Definition get_sorted_results (order : string) : Await (list (row Result.t)) :=
  query <-
    (if decide (lower order = "asc") then
       ret (λ db, merge_sort race_time_asc (select (results db)))
     else if decide (lower order = "desc") then
       ret (λ db, merge_sort race_time_desc (select (results db)))
     else
       raise (HTTPException 400
                "Invalid order parameter. Use 'asc' or 'desc'.")) ;;
  result <- execute query ;;
  let results := result in
  ret results.

(** ** app/routers/stage.py *)

(** [Float] is a column of double precision: binary64.  A race time is
    read by the aggregate as the binary64 number nearest to it, ties to
    even, which is the race time itself when it is such a number. *)
Abbreviation float8 := spec_float.

Definition float8_of_Z (z : Z) : float8 := binary_normalize 53 1024 z 0 false.

Definition float8_of_Q (q : Q) : float8 :=
  match Qnum q with
  | 0 => S754_zero false
  | Zpos n =>
      let '(m, e, l) :=
        SFdiv_core_binary 53 1024 (Zpos n) 0 (Zpos (Qden q)) 0 in
      binary_round_aux 53 1024 false m e l
  | Zneg n =>
      let '(m, e, l) :=
        SFdiv_core_binary 53 1024 (Zpos n) 0 (Zpos (Qden q)) 0 in
      binary_round_aux 53 1024 true m e l
  end.

(** The number a finite binary64 value stands for; an infinity or a NaN
    stands for none. *)
Definition Q_of_float8 (x : float8) : option Q :=
  match x with
  | S754_zero _ => Some 0%Q
  | S754_finite s m e =>
      Some (match e with
            | Zneg p => cond_Zopp s (Zpos m) # 2 ^ p
            | _ => inject_Z (cond_Zopp s (Zpos m) * 2 ^ e)
            end)
  | _ => None
  end.

(** Sum and quotient of binary64 values, rounded to the nearest. *)
Definition float8_pl (x y : float8) : float8 := SFadd 53 1024 x y.
Definition float8_div (x y : float8) : float8 := SFdiv 53 1024 x y.

(** [avg] over a [Float] column: a group's average is its sum divided by
    its count, in binary64.  A sum that has overflowed is infinite and
    stays so; the store then raises an error instead of answering.  Any
    other error of the store while it aggregates is, like every storage
    error, left to [faults]. *)
Definition float8_avg (state : float8 * nat) : option Q :=
  Q_of_float8 (float8_div state.1 (float8_of_Z (Z.of_nat state.2))).

(** [GROUP BY key] with [avg(val)]: one scan of the rows, in the order they
    are listed, keeps for every key met the sum and the number of its
    values, starting from zero. *)
Definition avg_step {A} (key : A → Z) (val : A → float8)
    (groups : gmap Z (float8 * nat)) (r : A) : gmap Z (float8 * nat) :=
  let state := default (S754_zero false, 0%nat) (groups !! key r) in
  <[key r := (float8_pl state.1 (val r), S state.2)]> groups.

Definition group_by_avg {A} (key : A → Z) (val : A → float8) (rows : list A)
  : option (list (Z * Q)) :=
  mapM (λ '(k, state), avg ← float8_avg state; Some (k, avg))
       (map_to_list (foldl (avg_step key val) ∅ rows)).

(** [await db.execute(query)] for a query that the store can refuse to
    answer: [None] is an error of the store. *)
Definition execute_checked {A} (query : Database → option A) : Await A :=
  result <- execute query ;;
  match result with
  | Some rows => ret rows
  | None => raise SQLAlchemyError
  end.

Definition get_average_race_time_per_stage : Await (list (gmap string value)) :=
  result <-
    execute_checked
      (λ db, group_by_avg (λ r, Result.stage_id (cols r))
                          (λ r, float8_of_Q (Result.race_time (cols r)))
                          (select (results db))) ;;
  ret ((λ '(stage_id, avg_race_time),
          dict [("stage_id", VInt stage_id);
                ("avg_race_time", VFloat avg_race_time)]) <$> result).

(** ** app/services *)

Definition setattr_stage (obj : row Stage.t) (a : Stage.attr) : Await unit :=
  modify (set_stages (alter (λ r, Stage.setattr r a) (id obj))).
Definition setattr_stable (obj : row Stable.t) (a : Stable.attr) : Await unit :=
  modify (set_stables (alter (λ r, Stable.setattr r a) (id obj))).

(** [await db.delete(obj)]: the row goes from the unit of work.  For a
    Stage or a Stable the session would also set the reference of every
    Result of its [results] relationship to NULL at the flush, which the
    column refuses ([nullable=False]): that is the check [commit] makes when
    a Result names a row that is gone. *)
Definition delete_obj {A}
    (set_table : (gmap Z A → gmap Z A) → Database → Database)
    (obj : row A) : Await unit :=
  modify (set_table (delete (id obj))).

Definition update_stage (stage_id : Z) (stage_data : StageUpdate.t)
  : Await (option (row Stage.t)) :=
  try_except
    (stage <-
       execute (λ db, filter (λ r, id r = stage_id) (select (stages db))) ;;
     existing_stage <- scalar_one_or_none stage ;;
     match existing_stage with
     | Some existing_stage =>
         for_each (StageUpdate.items stage_data)
           (λ kv, setattr_stage existing_stage kv) ;;
         commit ;;
         refreshed <- refresh stages (id existing_stage) ;;
         ret (Some refreshed)
     | None => ret None
     end)
    (rollback ;; ret None).

Definition delete_stage (stage_id : Z) : Await bool :=
  try_except
    (stage <-
       execute (λ db, filter (λ r, id r = stage_id) (select (stages db))) ;;
     existing_stage <- scalar_one_or_none stage ;;
     match existing_stage with
     | Some existing_stage =>
         delete_obj set_stages existing_stage ;;
         commit ;;
         ret true
     | None => ret false
     end)
    (rollback ;; ret false).

Definition update_stable (stable_id : Z) (stable_data : StableUpdate.t)
  : Await (option (row Stable.t)) :=
  try_except
    (stable <-
       execute (λ db, filter (λ r, id r = stable_id) (select (stables db))) ;;
     existing_stable <- scalar_one_or_none stable ;;
     match existing_stable with
     | Some existing_stable =>
         for_each (StableUpdate.items stable_data)
           (λ kv, setattr_stable existing_stable kv) ;;
         commit ;;
         refreshed <- refresh stables (id existing_stable) ;;
         ret (Some refreshed)
     | None => ret None
     end)
    (rollback ;; ret None).

Definition delete_stable (stable_id : Z) : Await bool :=
  try_except
    (stable <-
       execute (λ db, filter (λ r, id r = stable_id) (select (stables db))) ;;
     existing_stable <- scalar_one_or_none stable ;;
     match existing_stable with
     | Some existing_stable =>
         delete_obj set_stables existing_stable ;;
         commit ;;
         ret true
     | None => ret false
     end)
    (rollback ;; ret false).

Definition update_result (result_id : Z) (result_data : ResultUpdate.t)
  : Await (option (row Result.t)) :=
  try_except
    (result <-
       execute (λ db, filter (λ r, id r = result_id) (select (results db))) ;;
     existing_result <- scalar_one_or_none result ;;
     match existing_result with
     | Some existing_result =>
         for_each (ResultUpdate.items result_data)
           (λ kv, setattr_result existing_result kv) ;;
         commit ;;
         refreshed <- refresh results (id existing_result) ;;
         ret (Some refreshed)
     | None => ret None
     end)
    (rollback ;; ret None).

Definition delete_result (result_id : Z) : Await bool :=
  try_except
    (result <-
       execute (λ db, filter (λ r, id r = result_id) (select (results db))) ;;
     existing_result <- scalar_one_or_none result ;;
     match existing_result with
     | Some existing_result =>
         delete_obj set_results existing_result ;;
         commit ;;
         ret true
     | None => ret false
     end)
    (rollback ;; ret false).

(** ** Words of the specification *)



(** The row of the view for a Result whose two references resolve. *)
Definition details_of (db : Database) (r : row Result.t)
  : option (gmap string value) :=
  match stages db !! Result.stage_id (cols r),
        stables db !! Result.stable_id (cols r) with
  | Some stage, Some stable =>
      Some (dict [("id", VInt (id r));
                  ("driver_name", VStr (Result.driver_name (cols r)));
                  ("race_time", VFloat (Result.race_time (cols r)));
                  ("stage_name", VStr (Stage.name stage));
                  ("stable_name", VStr (Stable.name stable))])
  | _, _ => None
  end.

(** ** The scenario of the specification *)

Definition monza : Stage.t :=
  Stage.Build "Monza" "Italy" (datetime.Date 2024 5 1) (579 # 100) (Some 40000).
Definition red_bull : Stable.t := Stable.Build "Red Bull" "Austria" None None.
Definition max_result : ResultCreate :=
  ResultBase.Build "Max" (952 # 10) 53 1 2 1 1.
Definition second_result : Result.t :=
  Result.Build 1 1 "Sergio" (90 # 1) 53 (Some 3) (Some 2).
(** A result whose stage is gone. *)
Definition dangling_result : Result.t :=
  Result.Build 99 1 "Nico" (101 # 1) 50 None None.

(** One stage, one stable, no result yet. *)
Definition db_references : Database :=
  MkDatabase {[1 := monza]} {[1 := red_bull]} ∅.
(** The same with three results stored. *)
Definition db_scenario : Database :=
  MkDatabase {[1 := monza]} {[1 := red_bull]}
    (<[3 := dangling_result]>
       (<[2 := second_result]> {[1 := Result_of max_result]})).

(** The request bodies of the scenario. *)
Definition monza_body : gmap string value :=
  dict [("name", VStr "Monza"); ("country", VStr "Italy");
        ("date", VStr "2024-05-01"); ("lap_length", VFloat (579 # 100));
        ("attendance", VInt 40000)].
Definition red_bull_body : gmap string value :=
  dict [("name", VStr "Red Bull"); ("country", VStr "Austria")].
Definition max_body : gmap string value :=
  dict [("stage_id", VInt 1); ("stable_id", VInt 1);
        ("driver_name", VStr "Max"); ("race_time", VFloat (952 # 10));
        ("laps", VInt 53); ("position", VInt 1); ("pit_stops", VInt 2)].



(** ** The other handlers of app/routers *)

(** The storage rows built from the validated payloads. *)
Definition Stage_of (stage : StageCreate) : Stage.t :=
  {| Stage.name := StageBase.name stage;
     Stage.country := StageBase.country stage;
     Stage.date := StageBase.date stage;
     Stage.lap_length := StageBase.lap_length stage;
     Stage.attendance := Some (StageBase.attendance stage) |}.

Definition Stable_of (stable : StableCreate) : Stable.t :=
  {| Stable.name := StableBase.name stable;
     Stable.country := StableBase.country stable;
     Stable.motor := StableBase.motor stable;
     Stable.tire := StableBase.tire stable |}.

(** [db.add(new_stage)] and [db.add(new_stable)] *)
Definition add_stage (new_stage : Stage.t) : Await Z :=
  λ s, let k := next_id (stages (pending s)) in
       (Return k,
        MkSession (stored s) (set_stages <[k := new_stage]> (pending s))
                  (faults s)).

Definition add_stable (new_stable : Stable.t) : Await Z :=
  λ s, let k := next_id (stables (pending s)) in
       (Return k,
        MkSession (stored s) (set_stables <[k := new_stable]> (pending s))
                  (faults s)).

Definition get_results : Await (list (row Result.t)) :=
  result <- execute (λ db, select (results db)) ;;
  let results := result in
  ret results.

Definition get_result (result_id : Z) : Await (row Result.t) :=
  result <-
    execute (λ db, filter (λ r, id r = result_id) (select (results db))) ;;
  result_obj <- scalar_one_or_none result ;;
  match result_obj with
  | None => raise (HTTPException 404 "Result not found")
  | Some result_obj => ret result_obj
  end.

Definition create_stage (stage : StageCreate) : Await (row Stage.t) :=
  new_stage <- add_stage (Stage_of stage) ;;
  commit ;;
  refresh stages new_stage.

Definition get_stages : Await (list (row Stage.t)) :=
  result <- execute (λ db, select (stages db)) ;;
  let stages := result in
  ret stages.

Definition get_stage (stage_id : Z) : Await (row Stage.t) :=
  result <-
    execute (λ db, filter (λ r, id r = stage_id) (select (stages db))) ;;
  stage <- scalar_one_or_none result ;;
  match stage with
  | None => raise (HTTPException 404 "Stage not found")
  | Some stage => ret stage
  end.

Definition create_stable (stable : StableCreate) : Await (row Stable.t) :=
  new_stable <- add_stable (Stable_of stable) ;;
  commit ;;
  refresh stables new_stable.

Definition get_stables : Await (list (row Stable.t)) :=
  result <- execute (λ db, select (stables db)) ;;
  let stables := result in
  ret stables.

Definition get_stable (stable_id : Z) : Await (row Stable.t) :=
  result <-
    execute (λ db, filter (λ r, id r = stable_id) (select (stables db))) ;;
  stable <- scalar_one_or_none result ;;
  match stable with
  | None => raise (HTTPException 404 "Stable not found")
  | Some stable => ret stable
  end.

(** ** The other functions of app/services *)

Module stage_services.
Definition get_all_stages : Await (list (row Stage.t)) :=
  try_except
    (stages <- execute (λ db, select (stages db)) ;;
     ret stages)
    (ret []).

Definition get_stage_by_id (stage_id : Z) : Await (option (row Stage.t)) :=
  try_except
    (stage <-
       execute (λ db, filter (λ r, id r = stage_id) (select (stages db))) ;;
     scalar_one_or_none stage)
    (ret None).

Definition create_stage (stage_data : StageCreate)
  : Await (option (row Stage.t)) :=
  try_except
    (new_stage <- add_stage (Stage_of stage_data) ;;
     commit ;;
     refreshed <- refresh stages new_stage ;;
     ret (Some refreshed))
    (rollback ;; ret None).
End stage_services.

Module stable_services.
Definition get_all_stables : Await (list (row Stable.t)) :=
  try_except
    (stables <- execute (λ db, select (stables db)) ;;
     ret stables)
    (ret []).

Definition get_stable_by_id (stable_id : Z) : Await (option (row Stable.t)) :=
  try_except
    (stable <-
       execute (λ db, filter (λ r, id r = stable_id) (select (stables db))) ;;
     scalar_one_or_none stable)
    (ret None).

Definition create_stable (stable_data : StableCreate)
  : Await (option (row Stable.t)) :=
  try_except
    (new_stable <- add_stable (Stable_of stable_data) ;;
     commit ;;
     refreshed <- refresh stables new_stable ;;
     ret (Some refreshed))
    (rollback ;; ret None).
End stable_services.

Module result_services.
Definition get_all_results : Await (list (row Result.t)) :=
  try_except
    (results <- execute (λ db, select (results db)) ;;
     ret results)
    (ret []).

Definition get_result_by_id (result_id : Z) : Await (option (row Result.t)) :=
  try_except
    (result <-
       execute (λ db, filter (λ r, id r = result_id) (select (results db))) ;;
     scalar_one_or_none result)
    (ret None).

Definition create_result (result_data : ResultCreate)
  : Await (option (row Result.t)) :=
  try_except
    (new_result <- add_result (Result_of result_data) ;;
     commit ;;
     refreshed <- refresh results new_result ;;
     ret (Some refreshed))
    (rollback ;; ret None).
End result_services.

(** ** app/config/settings.py and the URL of app/database/connection.py *)

Module Settings.
Record t := Build
  { db_user : string; db_password : string; db_host : string;
    db_port : Z; db_name : string; db_owner : string }.

(** The [database_url] property of the settings. *)
Definition database_url (self : t) : string :=
  "postgresql+asyncpg://" +:+ db_user self +:+ ":" +:+ db_password self
  +:+ "@" +:+ db_host self +:+ ":" +:+ pretty (db_port self)
  +:+ "/" +:+ db_name self.
End Settings.

(** The URL the engine of the main database is created with. *)
Definition database_url (settings : Settings.t) : string :=
  "postgresql+asyncpg://" +:+ Settings.db_user settings +:+ ":"
  +:+ Settings.db_password settings +:+ "@" +:+ Settings.db_host settings
  +:+ ":5432/" +:+ Settings.db_name settings.

(** ** Further words for the properties *)

(** Every stored Result names a stored Stage and a stored Stable. *)
Definition references_resolve (db : Database) : Prop :=
  map_Forall (λ _ r, is_Some (stages db !! Result.stage_id r)
                     ∧ is_Some (stables db !! Result.stable_id r))
             (results db).

(** The scenario with its two good results only. *)
Definition db_two_results : Database :=
  MkDatabase {[1 := monza]} {[1 := red_bull]}
    (<[2 := second_result]> {[1 := Result_of max_result]}).

(** The bulk update of laps on one row. *)
Definition laps_above (threshold : Q) (new_laps : Z) (r : Result.t) : Result.t :=
  if decide (threshold < Result.race_time r)%Q
  then Result.setattr r (Result.Laps new_laps) else r.

(** The body [.dict()] gives for a validated payload. *)
Definition ResultBase_dict (r : ResultBase.t) : gmap string value :=
  dict [("driver_name", VStr (ResultBase.driver_name r));
        ("race_time", VFloat (ResultBase.race_time r));
        ("laps", VInt (ResultBase.laps r));
        ("position", VInt (ResultBase.position r));
        ("pit_stops", VInt (ResultBase.pit_stops r));
        ("stable_id", VInt (ResultBase.stable_id r));
        ("stage_id", VInt (ResultBase.stage_id r))].

Definition value_of_str_or_none (o : option string) : value :=
  match o with Some s => VStr s | None => VNone end.

Definition StableBase_dict (r : StableBase.t) : gmap string value :=
  dict [("name", VStr (StableBase.name r));
        ("country", VStr (StableBase.country r));
        ("motor", value_of_str_or_none (StableBase.motor r));
        ("tire", value_of_str_or_none (StableBase.tire r))].

(** A handler that leaves what the database holds as it is, in every
    session and whatever the store does. *)
Definition writes_nothing {A} (h : Await A) : Prop :=
  ∀ s, stored (h s).2 = stored s.

(** A read of the services: on a store that answers it returns [expected]
    and, whatever the store does, it returns either that or [fallback],
    without raising and without writing; a store that raises at once gives
    [fallback]. *)
Definition swallows_errors {A} (h : Await A) (db : Database)
    (expected fallback : A) : Prop :=
  (∀ fs, store_ok fs → dispatch h db fs = (Return expected, db))
  ∧ (∀ fs, dispatch h db (true :: fs) = (Return fallback, db))
  ∧ (∀ fs, ∃ o, dispatch h db fs = (Return o, db)
                ∧ (o = expected ∨ o = fallback)).

(** A creation of the services, of the row [new] in [table]: there is an
    identifier no row of the table has, under which, on a store that
    answers, the row is stored, and returned with it; when the commit
    raises, the creation returns [None] and nothing is stored; when the
    refresh after the commit raises, it returns [None] although the row is
    stored; and whatever the store does it returns, without raising, in one
    of these three ways. *)
Definition creates_or_reports_none {A} (h : Await (option (row A)))
    (table : Database → gmap Z A)
    (set_table : (gmap Z A → gmap Z A) → Database → Database)
    (db : Database) (new : A) : Prop :=
  ∃ k : Z,
    table db !! k = None
    ∧ (∀ fs, store_ok fs →
             dispatch h db fs
             = (Return (Some (k, new)), set_table <[k := new]> db))
    ∧ (∀ fs, dispatch h db (true :: fs) = (Return None, db))
    ∧ (∀ fs, dispatch h db (false :: true :: fs)
             = (Return None, set_table <[k := new]> db))
    ∧ (∀ fs, ∃ o db',
         dispatch h db fs = (Return o, db')
         ∧ (o = Some (k, new) ∧ db' = set_table <[k := new]> db
            ∨ o = None ∧ (db' = db ∨ db' = set_table <[k := new]> db))).

(** The validated payloads of the scenario's stage and stable. *)
Definition monza_create : StageCreate :=
  StageBase.Build "Monza" "Italy" (datetime.Date 2024 5 1) 40000 (579 # 100).
Definition red_bull_create : StableCreate :=
  StableBase.Build "Red Bull" "Austria" None None.

(** ** populate_database.py *)

Module populate_database.

Definition num_stages : nat := 10.
Definition num_stables : nat := 5.
Definition num_results : nat := 50.

(** What the script sees of a response: its status, and whether its body
    is JSON (the body of an unhandled error is not). *)
Record Response := MkResponse { status_code : Z; is_json : bool }.

(** The response to a request whose handler ended with [o], on a route
    that answers [success] when the handler returns: an [HTTPException]
    gives its status, an exception left unhandled gives 500. *)
Definition respond {A} (success : Z) (o : outcome A) : Response :=
  match o with
  | Return _ => MkResponse success true
  | Raise (HTTPException status _) => MkResponse status true
  | Raise SQLAlchemyError => MkResponse 500 false
  end.

(** [requests.post] to /stages/, /stables/ and /results/: only the route of
    the stages declares [status_code=201]. *)
Definition post_stage (data : StageCreate) (db : Database) (fs : list bool)
  : Response * Database :=
  let '(o, db') := dispatch (create_stage data) db fs in (respond 201 o, db').

Definition post_stable (data : StableCreate) (db : Database) (fs : list bool)
  : Response * Database :=
  let '(o, db') := dispatch (create_stable data) db fs in (respond 200 o, db').

Definition post_result (data : ResultCreate) (db : Database) (fs : list bool)
  : Response * Database :=
  let '(o, db') := dispatch (create_result data) db fs in (respond 200 o, db').

(** A line the script prints: the kind of line, with the payload or the
    response it shows. *)
Inductive printed :=
| message (text : string)
| Stage_added (data : StageCreate)
| Failed_to_add_stage (response : Response)
| Stable_added (data : StableCreate)
| Failed_to_add_stable (response : Response)
| Result_added (data : ResultCreate)
| Failed_to_add_result (response : Response).

(** The state of a run: whether [response.json()] has raised, which ends
    the script, the lines printed so far, and the database of the server. *)
Definition run : Type := bool * list printed * Database.

(** The loop of [create_stages], [create_stables] and [create_results]:
    [for _ in range(n)], with [fake i] the random payload of round [i] and
    the head of [fss] the behaviour of the store during its request. *)
Fixpoint post_each {A} (post : A → Database → list bool → Response * Database)
    (added : A → printed) (failed : Response → printed)
    (fake : nat → A) (i n : nat) (fss : list (list bool)) (db : Database)
  : run * list (list bool) :=
  match n with
  | O => ((false, [], db), fss)
  | S n' =>
      let data := fake i in
      let '(response, db') := post data db (default [] (head fss)) in
      if decide (status_code response = 201) then
        let '((raised, lines, db''), fss') :=
          post_each post added failed fake (S i) n' (tail fss) db' in
        ((raised, added data :: lines, db''), fss')
      else if is_json response then
        let '((raised, lines, db''), fss') :=
          post_each post added failed fake (S i) n' (tail fss) db' in
        ((raised, failed response :: lines, db''), fss')
      else ((true, [], db'), tail fss)
  end.

Definition create_stages (n : nat) (fake : nat → StageCreate) :=
  post_each post_stage Stage_added Failed_to_add_stage fake 0 n.

Definition create_stables (n : nat) (fake : nat → StableCreate) :=
  post_each post_stable Stable_added Failed_to_add_stable fake 0 n.

Definition create_results (n : nat) (fake : nat → ResultCreate) :=
  post_each post_result Result_added Failed_to_add_result fake 0 n.

Definition populate_database
    (fake_stage : nat → StageCreate) (fake_stable : nat → StableCreate)
    (fake_result : nat → ResultCreate)
    (fss : list (list bool)) (db : Database) : run :=
  let '((raised, stages_lines, db1), fss1) :=
    create_stages num_stages fake_stage fss db in
  if raised then (true, message "Adding stages..." :: stages_lines, db1) else
  let '((raised, stables_lines, db2), fss2) :=
    create_stables num_stables fake_stable fss1 db1 in
  if raised then
    (true,
     message "Adding stages..." :: stages_lines
     ++ message "Adding stables..." :: stables_lines, db2)
  else
  let '((raised, results_lines, db3), _) :=
    create_results num_results fake_result fss2 db2 in
  if raised then
    (true,
     message "Adding stages..." :: stages_lines
     ++ message "Adding stables..." :: stables_lines
     ++ message "Adding results..." :: results_lines, db3)
  else
    (false,
     message "Adding stages..." :: stages_lines
     ++ message "Adding stables..." :: stables_lines
     ++ message "Adding results..." :: results_lines
     ++ [message "Database population complete!"], db3).

End populate_database.

(** The identifiers of a table are 1 to [m], as the store assigns them to
    [m] rows created in a new table. *)
Definition keys_upto {A} (m : nat) (table : gmap Z A) : Prop :=
  ∀ k : Z, is_Some (table !! k) ↔ 1 ≤ k ≤ Z.of_nat m.

(** ** The response model of the results *)

Module ResultRead.
Record t := Build { id : Z; base : ResultBase.t }.

(** Validation of an ORM object against the model ([from_attributes]):
    every field of [ResultBase] must hold a value, and a NULL column holds
    none. *)
Definition validate (obj : row Result.t) : option t :=
  position ← Result.position obj.2;
  pit_stops ← Result.pit_stops obj.2;
  Some (Build obj.1
          (ResultBase.Build (Result.driver_name obj.2) (Result.race_time obj.2)
             (Result.laps obj.2) position pit_stops
             (Result.stable_id obj.2) (Result.stage_id obj.2))).
End ResultRead.

(** Every stored Result can be returned through the response model. *)
Definition results_serialise (db : Database) : Prop :=
  map_Forall (λ k r, is_Some (ResultRead.validate (k, r))) (results db).
(** ** Properties of the session primitives *)

Lemma store_ok_tail fs : store_ok fs → store_ok (tail fs).
Proof. destruct 1; [constructor | done]. Qed.

Lemma round_trip_ok s :
  store_ok (faults s) →
  round_trip s = (Return tt, MkSession (stored s) (pending s) (tail (faults s))).
Proof.
  destruct s as [st pe [|b fs]]; unfold round_trip; simpl; [done|].
  inversion 1; by subst.
Qed.

Lemma execute_ok {A} (query : Database → A) s :
  store_ok (faults s) →
  execute query s =
  (Return (query (pending s)),
   MkSession (stored s) (pending s) (tail (faults s))).
Proof. intros H. unfold execute, bind. by rewrite round_trip_ok. Qed.

Lemma commit_ok s :
  store_ok (faults s) →
  foreign_keys_accepted (stored s) (pending s) →
  commit s =
  (Return tt, MkSession (pending s) (pending s) (tail (faults s))).
Proof.
  intros H Hfk. unfold commit, bind. rewrite round_trip_ok by done.
  cbn [stored pending faults]. by rewrite decide_True.
Qed.

(** Whatever the store does, a round trip leaves both views of the tables
    as they are. *)
Lemma round_trip_cases s :
  ∃ o fs', round_trip s = (o, MkSession (stored s) (pending s) fs')
           ∧ (o = Return tt ∨ o = Raise SQLAlchemyError).
Proof.
  destruct s as [st pe [|[] fs]]; unfold round_trip; simpl; eauto.
Qed.

(** Whatever the store does, a commit either raises and leaves what the
    database holds, or flushes the unit of work. *)
Lemma commit_cases s :
  ∃ fs', commit s = (Raise SQLAlchemyError,
                     MkSession (stored s) (pending s) fs')
         ∨ commit s = (Return tt, MkSession (pending s) (pending s) fs').
Proof.
  unfold commit, bind.
  destruct (round_trip_cases s) as (o & fs' & -> & [->| ->]);
    cbn [stored pending faults]; [|eauto].
  case_decide; eauto.
Qed.

(** ** Foreign keys at a commit *)

(** No reference is written and no Stage or Stable goes. *)
Lemma foreign_keys_unchanged (before after : Database) :
  (∀ j, is_Some (stages before !! j) → is_Some (stages after !! j)) →
  (∀ j, is_Some (stables before !! j) → is_Some (stables after !! j)) →
  (∀ k r, results after !! k = Some r →
          ∃ r0, results before !! k = Some r0
                ∧ Result.stage_id r0 = Result.stage_id r
                ∧ Result.stable_id r0 = Result.stable_id r) →
  foreign_keys_accepted before after.
Proof.
  intros Hstages Hstables Hrows k r Hk.
  destruct (Hrows k r Hk) as (r0 & Hk0 & Hstage & Hstable).
  rewrite Hk0. simpl. rewrite Hstage, Hstable. unfold reference_accepted. split.
  - destruct (stages before !! Result.stage_id r) eqn:Hs; [|by right].
    left. apply Hstages. by rewrite Hs.
  - destruct (stables before !! Result.stable_id r) eqn:Hs; [|by right].
    left. apply Hstables. by rewrite Hs.
Qed.

(** One Result is written: the commit is accepted exactly when each of its
    references names a row or is the one the Result had. *)
Lemma foreign_keys_result_written (db : Database) (k : Z) (new : Result.t) :
  foreign_keys_accepted db (set_results <[k := new]> db)
  ↔ (is_Some (stages db !! Result.stage_id new)
     ∨ Result.stage_id <$> results db !! k = Some (Result.stage_id new))
    ∧ (is_Some (stables db !! Result.stable_id new)
       ∨ Result.stable_id <$> results db !! k = Some (Result.stable_id new)).
Proof.
  unfold foreign_keys_accepted, reference_accepted. simpl. split.
  - intros Hall. specialize (Hall k new (lookup_insert_eq _ _ _)).
    destruct Hall as [[?|[? _]] [?|[? _]]]; auto.
  - intros [Hstage Hstable] j r Hj.
    destruct (decide (k = j)) as [->|Hne].
    + rewrite lookup_insert_eq in Hj. simplify_eq. split.
      * destruct (stages db !! Result.stage_id r) eqn:Hs; [by left; eexists|].
        destruct Hstage as [[? ?]|?]; [done|by right].
      * destruct (stables db !! Result.stable_id r) eqn:Hs; [by left; eexists|].
        destruct Hstable as [[? ?]|?]; [done|by right].
    + rewrite lookup_insert_ne in Hj by done. rewrite Hj. simpl. split.
      * destruct (stages db !! Result.stage_id r) eqn:Hs;
          [by left; eexists | by right].
      * destruct (stables db !! Result.stable_id r) eqn:Hs;
          [by left; eexists | by right].
Qed.

(** A Stage goes: the commit is accepted exactly when no Result names it;
    and so for a Stable. *)
Lemma foreign_keys_stage_deleted (db : Database) (k : Z) :
  is_Some (stages db !! k) →
  foreign_keys_accepted db (set_stages (delete k) db)
  ↔ ∀ j r, results db !! j = Some r → Result.stage_id r ≠ k.
Proof.
  intros Hk. unfold foreign_keys_accepted, reference_accepted. simpl. split.
  - intros Hall j r Hj Heq. destruct (Hall j r Hj) as [[Hgone|[_ Hnone]] _].
    + rewrite Heq, lookup_delete_eq in Hgone. by destruct Hgone.
    + rewrite <- Heq, Hnone in Hk. by destruct Hk.
  - intros Hfree j r Hj. rewrite Hj. simpl. split.
    + rewrite lookup_delete_ne by (intros Heq; by apply (Hfree j r)).
      destruct (stages db !! Result.stage_id r) eqn:Hs;
        [by left; eexists | by right].
    + destruct (stables db !! Result.stable_id r) eqn:Hs;
        [by left; eexists | by right].
Qed.

Lemma foreign_keys_stable_deleted (db : Database) (k : Z) :
  is_Some (stables db !! k) →
  foreign_keys_accepted db (set_stables (delete k) db)
  ↔ ∀ j r, results db !! j = Some r → Result.stable_id r ≠ k.
Proof.
  intros Hk. unfold foreign_keys_accepted, reference_accepted. simpl. split.
  - intros Hall j r Hj Heq. destruct (Hall j r Hj) as [_ [Hgone|[_ Hnone]]].
    + rewrite Heq, lookup_delete_eq in Hgone. by destruct Hgone.
    + rewrite <- Heq, Hnone in Hk. by destruct Hk.
  - intros Hfree j r Hj. rewrite Hj. simpl. split.
    + destruct (stages db !! Result.stage_id r) eqn:Hs;
        [by left; eexists | by right].
    + rewrite lookup_delete_ne by (intros Heq; by apply (Hfree j r)).
      destruct (stables db !! Result.stable_id r) eqn:Hs;
        [by left; eexists | by right].
Qed.

(** Rows of the stages or of the stables are written or added, or a Result
    goes: nothing to refuse. *)
Lemma foreign_keys_stages_written (db : Database) (k : Z) (x : Stage.t) :
  foreign_keys_accepted db (set_stages <[k := x]> db).
Proof.
  apply foreign_keys_unchanged; simpl; [|eauto..].
  intros j Hj. destruct (decide (k = j)) as [->|?];
    [rewrite lookup_insert_eq; by eexists | by rewrite lookup_insert_ne].
Qed.

Lemma foreign_keys_stables_written (db : Database) (k : Z) (x : Stable.t) :
  foreign_keys_accepted db (set_stables <[k := x]> db).
Proof.
  apply foreign_keys_unchanged; simpl; [eauto| |eauto].
  intros j Hj. destruct (decide (k = j)) as [->|?];
    [rewrite lookup_insert_eq; by eexists | by rewrite lookup_insert_ne].
Qed.

Lemma foreign_keys_result_deleted (db : Database) (k : Z) :
  foreign_keys_accepted db (set_results (delete k) db).
Proof.
  apply foreign_keys_unchanged; simpl; [eauto..|].
  intros j r Hj. apply lookup_delete_Some in Hj as [_ Hj]. eauto.
Qed.

Lemma foreign_keys_result_added (db : Database) (k : Z) (new : Result.t) :
  is_Some (stages db !! Result.stage_id new) →
  is_Some (stables db !! Result.stable_id new) →
  foreign_keys_accepted db (set_results <[k := new]> db).
Proof. intros. apply foreign_keys_result_written. auto. Qed.

(** Stored Results are rewritten with their references kept. *)
Lemma foreign_keys_foldl_alter (db : Database) (f : Result.t → Result.t)
    (rows : list (row Result.t)) :
  (∀ c, Result.stage_id (f c) = Result.stage_id c
        ∧ Result.stable_id (f c) = Result.stable_id c) →
  foreign_keys_accepted db
    (set_results (λ m, foldl (λ m r, alter f (id r) m) m rows) db).
Proof.
  intros Hf. apply foreign_keys_unchanged; simpl; [eauto..|].
  generalize (results db). induction rows as [|[i x] rows IH]; intros m k r.
  - simpl. eauto.
  - cbn [foldl]. intros Hk. apply IH in Hk as (r1 & Hk & Hstage & Hstable).
    change (id (i, x)) with i in Hk. rewrite lookup_alter in Hk.
    case_decide as Hi; [|eauto]. subst i.
    destruct (m !! k) as [r0|]; [|done]. simpl in Hk. simplify_eq.
    exists r0. destruct (Hf r0) as [<- <-]. done.
Qed.

Lemma foreign_keys_result_updated (db : Database) (k : Z) (old new : Result.t) :
  results db !! k = Some old →
  foreign_keys_accepted db (set_results <[k := new]> db)
  ↔ references_accepted db old new.
Proof.
  intros Hk. rewrite foreign_keys_result_written, Hk.
  unfold references_accepted. simpl.
  split; intros [[?|?] [?|?]]; split; auto; simplify_eq; auto;
    right; congruence.
Qed.

Lemma foreign_keys_stages_altered (db : Database) (f : Stage.t → Stage.t) k :
  foreign_keys_accepted db (set_stages (alter f k) db).
Proof.
  apply foreign_keys_unchanged; simpl; [|eauto..].
  intros j [x Hj]. rewrite lookup_alter.
  case_decide; subst; rewrite Hj; by eexists.
Qed.

Lemma foreign_keys_stables_altered (db : Database) (f : Stable.t → Stable.t) k :
  foreign_keys_accepted db (set_stables (alter f k) db).
Proof.
  apply foreign_keys_unchanged; simpl; [eauto| |eauto].
  intros j [x Hj]. rewrite lookup_alter.
  case_decide; subst; rewrite Hj; by eexists.
Qed.

(** A Result is added under an identifier no Result has: both references
    have to name a row. *)
Lemma foreign_keys_result_added_iff (db : Database) (k : Z) (new : Result.t) :
  results db !! k = None →
  foreign_keys_accepted db (set_results <[k := new]> db)
  ↔ is_Some (stages db !! Result.stage_id new)
    ∧ is_Some (stables db !! Result.stable_id new).
Proof.
  intros Hk. rewrite foreign_keys_result_written, Hk. simpl.
  split; [intros [[?|?] [?|?]]; done | intros [? ?]; auto].
Qed.

(** The commit when the store answers it, whatever it does afterwards. *)
Lemma commit_flushes s :
  head (faults s) ≠ Some true →
  foreign_keys_accepted (stored s) (pending s) →
  commit s = (Return tt, MkSession (pending s) (pending s) (tail (faults s))).
Proof.
  intros Hhead Hfk. unfold commit, bind, round_trip.
  destruct s as [st pe [|[] fs]]; simpl in *; [|done|]; by rewrite decide_True.
Qed.

(** The side conditions of [commit_ok]. *)
Ltac store_ok_tac := simpl; repeat first [done | apply store_ok_tail].

Ltac foreign_keys_tac :=
  first
    [ apply foreign_keys_stages_written
    | apply foreign_keys_stables_written
    | apply foreign_keys_stages_altered
    | apply foreign_keys_stables_altered
    | apply foreign_keys_result_deleted
    | by apply foreign_keys_foldl_alter
    | apply foreign_keys_result_added; simpl;
      first [done | eapply mk_is_Some; eassumption] ].

Ltac commit_step := rewrite commit_ok; [|store_ok_tac|foreign_keys_tac].

(** A primary key selects at most one row. *)
Lemma filter_id_absent {A} (k : Z) (l : list (row A)) :
  k ∉ l.*1 → filter (λ r, id r = k) l = [].
Proof.
  induction l as [|[i x] l IH]; [done|].
  rewrite fmap_cons, not_elem_of_cons. simpl. intros [Hne Hl].
  rewrite filter_cons_False by (unfold id; simpl; congruence). auto.
Qed.

Lemma filter_id_present {A} (k : Z) (x : A) (l : list (row A)) :
  NoDup l.*1 → (k, x) ∈ l → filter (λ r, id r = k) l = [(k, x)].
Proof.
  induction l as [|[i y] l IH]; [by intros _ ?%elem_of_nil|].
  rewrite fmap_cons, NoDup_cons, elem_of_cons. simpl. intros [Hi Hl] [Heq|Hin].
  - inversion Heq; subst i y.
    rewrite filter_cons_True by done. by rewrite filter_id_absent.
  - assert (i ≠ k) as Hne.
    { intros ->. apply Hi, list_elem_of_fmap. by exists (k, x). }
    rewrite filter_cons_False by (unfold id; simpl; congruence). auto.
Qed.

Lemma select_by_id {A} (table : gmap Z A) (k : Z) :
  filter (λ r, id r = k) (select table) =
  match table !! k with Some x => [(k, x)] | None => [] end.
Proof.
  unfold select. destruct (table !! k) as [x|] eqn:Hk.
  - apply filter_id_present; [apply NoDup_fst_map_to_list|].
    by apply elem_of_map_to_list.
  - apply filter_id_absent. intros ([i x] & Hi & Hin)%list_elem_of_fmap.
    simpl in Hi. subst i. apply elem_of_map_to_list in Hin. congruence.
Qed.

(** The identifier given to a new row is not in use. *)
Lemma next_id_above {A} (table : gmap Z A) (k : Z) :
  is_Some (table !! k) → k < next_id table.
Proof.
  unfold next_id.
  cut (∀ k : Z, is_Some (table !! k) →
            k ≤ map_fold (λ k (_ : A) acc, Z.max k acc) 0 table).
  { intros H Hk. specialize (H k Hk). lia. }
  clear k.
  apply (map_fold_weak_ind
           (λ (r : Z) (m : gmap Z A), ∀ k : Z, is_Some (m !! k) → k ≤ r)).
  - intros k [x Hx]. by rewrite lookup_empty in Hx.
  - intros i x m r _ IH k Hk. destruct (decide (i = k)) as [->|Hne]; [lia|].
    rewrite lookup_insert_ne in Hk by done. specialize (IH k Hk). lia.
Qed.

Lemma next_id_fresh {A} (table : gmap Z A) : table !! next_id table = None.
Proof.
  destruct (table !! next_id table) eqn:H; [|done].
  pose proof (next_id_above table (next_id table)) as Hlt.
  rewrite H in Hlt. specialize (Hlt (mk_is_Some _ _ eq_refl)). lia.
Qed.

Lemma refresh_ok {A} (table : Database → gmap Z A) (k : Z) s :
  store_ok (faults s) →
  refresh table k s =
  (match table (pending s) !! k with
   | Some r => Return (k, r)
   | None => Raise SQLAlchemyError
   end,
   MkSession (stored s) (pending s) (tail (faults s))).
Proof.
  intros H. unfold refresh, bind. rewrite round_trip_ok by done.
  simpl. by destruct (table (pending s) !! k).
Qed.

Lemma execute_cases {A} (query : Database → A) s :
  ∃ o fs', execute query s = (o, MkSession (stored s) (pending s) fs')
           ∧ (o = Return (query (pending s)) ∨ o = Raise SQLAlchemyError).
Proof.
  unfold execute, bind.
  destruct (round_trip_cases s) as (o & fs' & -> & [->| ->]); simpl; eauto.
Qed.

(** ** Result creation *)

(** C1: creating a Result first looks the stable up and answers 400 when it
    is missing, then the stage and answers 400 when it is missing, and only
    with both present stores the new row, under an identifier not in use;
    with a reference missing the stored state is left as it was, whatever
    the store does. *)
Theorem create_result_checks_references
    (result : ResultCreate) (db : Database) (fs : list bool) :
  store_ok fs →
  let k := next_id (results db) in
  results db !! k = None
  ∧ dispatch (create_result result) db fs =
    match stables db !! ResultBase.stable_id result,
          stages db !! ResultBase.stage_id result with
    | None, _ =>
        (Raise (HTTPException 400 "Invalid stable_id: does not exist"), db)
    | Some _, None =>
        (Raise (HTTPException 400 "Invalid stage_id: does not exist"), db)
    | Some _, Some _ =>
        (Return (k, Result_of result),
         set_results <[k := Result_of result]> db)
    end
  ∧ ∀ fs',
      stables db !! ResultBase.stable_id result = None
      ∨ stages db !! ResultBase.stage_id result = None →
      (dispatch (create_result result) db fs').2 = db.
Proof.
  intros Hok k. split; [apply next_id_fresh|]. split.
  - unfold dispatch, create_result, bind.
    rewrite execute_ok by done. simpl. rewrite select_by_id.
    destruct (stables db !! _) as [stable|] eqn:Hstable; simpl; [|done].
    rewrite execute_ok by (simpl; by apply store_ok_tail). simpl.
    rewrite select_by_id.
    destruct (stages db !! _) as [stage|] eqn:Hstage; simpl; [|done].
    rewrite commit_ok;
      [|store_ok_tac
       |apply foreign_keys_result_added; simpl;
        [by rewrite Hstage|by rewrite Hstable]].
    simpl.
    rewrite refresh_ok by (simpl; by do 3 apply store_ok_tail). simpl.
    fold k. by rewrite lookup_insert_eq.
  - intros fs' Hmiss. unfold dispatch, create_result, bind.
    destruct (execute_cases
                (λ db, filter (λ r, id r = ResultBase.stable_id result)
                              (select (stables db)))
                (MkSession db db fs')) as (o & fs1 & -> & [->| ->]);
      simpl; [|done].
    rewrite select_by_id.
    destruct (stables db !! _) as [stable|] eqn:Hstable; simpl; [|done].
    destruct (execute_cases
                (λ db, filter (λ r, id r = ResultBase.stage_id result)
                              (select (stages db)))
                (MkSession db db fs1)) as (o & fs2 & -> & [->| ->]);
      simpl; [|done].
    rewrite select_by_id.
    destruct (stages db !! _) as [stage|] eqn:Hstage; simpl; [|done].
    by destruct Hmiss.
Qed.

(** ** Filtering *)

(** C4: the filter by stage and stable returns, once each, exactly the
    stored Results with that stage reference and that stable reference,
    and the empty list, not an error, when there is none. *)
Theorem get_filtered_results_exact (s t : Z) (db : Database) (fs : list bool) :
  store_ok fs →
  ∃ out,
    dispatch (get_filtered_results s t) db fs = (Return out, db)
    ∧ NoDup out
    ∧ (∀ k r, (k, r) ∈ out ↔
              results db !! k = Some r
              ∧ Result.stage_id r = s ∧ Result.stable_id r = t)
    ∧ ((∀ k r, results db !! k = Some r →
               ¬ (Result.stage_id r = s ∧ Result.stable_id r = t)) →
       out = []).
Proof.
  intros Hok. eexists. split.
  { unfold dispatch, get_filtered_results, bind. by rewrite execute_ok. }
  simpl. split; [apply NoDup_filter, NoDup_map_to_list|]. split.
  - intros k r. rewrite list_elem_of_filter. unfold select, cols. simpl.
    rewrite elem_of_map_to_list. tauto.
  - intros Hnone.
    destruct (filter _ _) as [|[k r] l] eqn:Hf; [done|]. exfalso.
    assert ((k, r) ∈ filter
              (λ r : row Result.t,
                 Result.stage_id (cols r) = s ∧ Result.stable_id (cols r) = t)
              (select (results db))) as Hin by (rewrite Hf; left).
    apply list_elem_of_filter in Hin as [Hp Hin].
    apply elem_of_map_to_list in Hin. by apply (Hnone k r).
Qed.

(** ** Sorting *)

#[local] Instance race_time_asc_trans : Transitive race_time_asc.
Proof. intros a b c. unfold race_time_asc. apply Qle_trans. Qed.
#[local] Instance race_time_asc_total : Total race_time_asc.
Proof.
  intros a b. unfold race_time_asc.
  destruct (Qlt_le_dec (Result.race_time (cols a)) (Result.race_time (cols b)));
    auto using Qlt_le_weak.
Qed.
#[local] Instance race_time_desc_trans : Transitive race_time_desc.
Proof. intros a b c. unfold race_time_desc. intros ??. by eapply Qle_trans. Qed.
#[local] Instance race_time_desc_total : Total race_time_desc.
Proof. intros a b. unfold race_time_desc. apply (race_time_asc_total b a). Qed.

Lemma lower_tokens :
  lower "ASC" = "asc" ∧ lower "Asc" = "asc" ∧ lower "asc" = "asc"
  ∧ lower "DESC" = "desc" ∧ lower "dEsC" = "desc" ∧ lower "desc" = "desc".
Proof. by repeat split. Qed.

(** C3: with an order whose lower-case form is "asc" the sorted listing is
    all the stored Results, each earlier one with a race time at most that
    of each later one; with "desc", at least; the order is read through its
    lower-case form only; with any other order the answer is 400 and
    nothing is returned. *)
Theorem get_sorted_results_order
    (order : string) (db : Database) (fs : list bool) :
  store_ok fs →
  (lower order = "asc" →
   ∃ out, dispatch (get_sorted_results order) db fs = (Return out, db)
          ∧ out ≡ₚ select (results db)
          ∧ StronglySorted race_time_asc out)
  ∧ (lower order = "desc" →
     ∃ out, dispatch (get_sorted_results order) db fs = (Return out, db)
            ∧ out ≡ₚ select (results db)
            ∧ StronglySorted race_time_desc out)
  ∧ (lower order ≠ "asc" → lower order ≠ "desc" →
     ∀ fs', dispatch (get_sorted_results order) db fs' =
            (Raise (HTTPException 400
                      "Invalid order parameter. Use 'asc' or 'desc'."), db))
  ∧ (∀ order', lower order' = lower order →
               dispatch (get_sorted_results order') db fs =
               dispatch (get_sorted_results order) db fs).
Proof.
  intros Hok. repeat split.
  - intros Hasc. eexists. split.
    { unfold dispatch, get_sorted_results, bind.
      rewrite decide_True by done. simpl. by rewrite execute_ok. }
    split; [apply merge_sort_Permutation|].
    apply (StronglySorted_merge_sort _).
  - intros Hdesc. eexists. split.
    { unfold dispatch, get_sorted_results, bind.
      rewrite decide_False by (rewrite Hdesc; discriminate).
      rewrite decide_True by done. simpl. by rewrite execute_ok. }
    split; [apply merge_sort_Permutation|].
    apply (StronglySorted_merge_sort _).
  - intros Hasc Hdesc fs'. unfold dispatch, get_sorted_results, bind.
    by rewrite !decide_False by done.
  - intros order' Heq. unfold dispatch, get_sorted_results, bind.
    by rewrite Heq.
Qed.

(** ** Attribute assignment in the unit of work *)

Lemma set_results_id db : set_results (λ m, m) db = db.
Proof. by destruct db. Qed.
Lemma set_stages_id db : set_stages (λ m, m) db = db.
Proof. by destruct db. Qed.
Lemma set_stables_id db : set_stables (λ m, m) db = db.
Proof. by destruct db. Qed.

(** Assigning one attribute to each object of a list. *)
Lemma for_each_setattr_result (rows : list (row Result.t)) (a : Result.attr) s :
  for_each rows (λ r, setattr_result r a) s =
  (Return tt,
   MkSession (stored s)
     (set_results
        (λ m, foldl (λ m r, alter (λ c, Result.setattr c a) (id r) m) m rows)
        (pending s))
     (faults s)).
Proof.
  revert s. induction rows as [|r rows IH]; intros [st pe fs]; simpl.
  - unfold ret. by rewrite set_results_id.
  - unfold bind, setattr_result, modify. simpl. rewrite IH. simpl.
    by destruct pe.
Qed.

Lemma lookup_foldl_alter {A} (f : A → A) (rows : list (row A))
    (m : gmap Z A) (k : Z) :
  (∀ x, f (f x) = f x) →
  foldl (λ m r, alter f (id r) m) m rows !! k =
  if decide (k ∈ rows.*1) then f <$> m !! k else m !! k.
Proof.
  intros Hf. revert m. induction rows as [|[i x] rows IH]; intros m.
  - done.
  - cbn [foldl]. rewrite IH, fmap_cons. change (id (i, x)) with i.
    cbn [fst]. rewrite lookup_alter. clear IH.
    destruct (decide (k ∈ i :: rows.*1)) as [Hin'|Hnin'];
      destruct (decide (k ∈ rows.*1)) as [Hin|Hnin];
      destruct (decide (i = k)) as [->|Hne]; try done.
    + destruct (m !! k); simpl; by rewrite ?Hf.
    + by apply elem_of_cons in Hin' as [->|?].
    + destruct Hnin'. apply elem_of_cons. by right.
    + destruct Hnin'. apply elem_of_cons. by right.
    + destruct Hnin'. apply elem_of_cons. by left.
Qed.

Lemma elem_of_fst_filter_select {A} (P : row A → Prop) `{∀ r, Decision (P r)}
    (table : gmap Z A) (k : Z) :
  k ∈ (filter P (select table)).*1 ↔ ∃ x, table !! k = Some x ∧ P (k, x).
Proof.
  rewrite list_elem_of_fmap. split.
  - intros ([i x] & -> & [HP Hin%elem_of_map_to_list]%list_elem_of_filter).
    by exists x.
  - intros (x & Hk & HP). exists (k, x). split; [done|].
    apply list_elem_of_filter. split; [done|]. by apply elem_of_map_to_list.
Qed.

Lemma length_filter_select {A} (P : row A → Prop) `{∀ r, Decision (P r)}
    (table : gmap Z A) :
  length (filter P (select table)) = size (filter P table).
Proof.
  unfold select. rewrite (map_filter_alt P table), map_size_list_to_map; [done|].
  apply (sublist_NoDup _ (map_to_list table).*1).
  - apply NoDup_fst_map_to_list.
  - apply fmap_sublist, sublist_filter.
Qed.

(** ** Bulk update of laps *)

(** C2: the bulk update sets laps to the new value on the Results whose
    race time is strictly above the threshold and on no other, keeps every
    other field of every Result and the other tables, and reports how
    many Results are above the threshold. *)
Theorem update_laps_above_threshold
    (threshold : Q) (new_laps : Z) (db : Database) (fs : list bool) :
  store_ok fs →
  let above (r : row Result.t) := (threshold < Result.race_time (cols r))%Q in
  ∃ db',
    dispatch (update_laps threshold new_laps) db fs =
    (Return (dict [("message",
                    VStr (pretty (size (filter above (results db)))
                          +:+ " results updated."))]), db')
    ∧ stages db' = stages db
    ∧ stables db' = stables db
    ∧ (∀ k, results db !! k = None → results db' !! k = None)
    ∧ (∀ k r, results db !! k = Some r → ¬ above (k, r) →
              results db' !! k = Some r)
    ∧ (∀ k r, results db !! k = Some r → above (k, r) →
              ∃ r', results db' !! k = Some r'
                    ∧ Result.laps r' = new_laps
                    ∧ Result.stage_id r' = Result.stage_id r
                    ∧ Result.stable_id r' = Result.stable_id r
                    ∧ Result.driver_name r' = Result.driver_name r
                    ∧ Result.race_time r' = Result.race_time r
                    ∧ Result.pit_stops r' = Result.pit_stops r
                    ∧ Result.position r' = Result.position r).
Proof.
  intros Hok above. eexists. split.
  { unfold dispatch, update_laps, bind. rewrite execute_ok by done. simpl.
    rewrite for_each_setattr_result. simpl.
    rewrite commit_ok;
      [|store_ok_tac|by apply foreign_keys_foldl_alter]. simpl.
    unfold ret. rewrite (length_filter_select above). done. }
  simpl. repeat split.
  - intros k Hk. rewrite lookup_foldl_alter by done. rewrite Hk.
    by case_decide.
  - intros k r Hk Hna. rewrite lookup_foldl_alter by done. rewrite Hk.
    case_decide as Hin; [|done].
    apply (elem_of_fst_filter_select above) in Hin as (x & Hx & Hab).
    by simplify_eq.
  - intros k r Hk Hab. rewrite lookup_foldl_alter by done. rewrite Hk.
    case_decide as Hin.
    + eexists. split; [done|]. by repeat split.
    + destruct Hin. apply (elem_of_fst_filter_select above). by exists r.
Qed.

(** X8: the bulk update is all or nothing: whatever the store does, the request
    either ends as it does on a store that raises no error, or raises the
    storage error with nothing changed. *)
Lemma update_laps_all_or_nothing
    (threshold : Q) (new_laps : Z) (db : Database) (fs : list bool) :
  dispatch (update_laps threshold new_laps) db fs
  = dispatch (update_laps threshold new_laps) db []
  ∨ dispatch (update_laps threshold new_laps) db fs
    = (Raise SQLAlchemyError, db).
Proof.
  unfold dispatch, update_laps, bind.
  rewrite (execute_ok _ (MkSession db db [])) by constructor.
  cbn [pending stored faults tail]. rewrite for_each_setattr_result.
  cbn [pending stored faults].
  rewrite commit_ok; [|by constructor|by apply foreign_keys_foldl_alter].
  match goal with
  | |- context [execute ?q (MkSession db db fs)] =>
      destruct (execute_cases q (MkSession db db fs))
        as (? & ? & -> & [->| ->])
  end; [|by right].
  cbn [pending stored faults]. rewrite for_each_setattr_result.
  cbn [pending stored faults]. unfold commit, bind.
  match goal with
  | |- context [round_trip ?s] =>
      destruct (round_trip_cases s) as (? & ? & -> & [->| ->])
  end; [|by right].
  cbn [pending stored faults].
  rewrite decide_True by (by apply foreign_keys_foldl_alter). by left.
Qed.

(** ** The join with stages and stables *)

Lemma select_by_ref {A} (table : gmap Z A) (k : Z) :
  filter (λ r, k = id r) (select table) =
  match table !! k with Some x => [(k, x)] | None => [] end.
Proof.
  rewrite <-select_by_id. apply list_filter_iff. intros r. split; congruence.
Qed.

Lemma join_query_details (db : Database) :
  (λ '(r, stage_name, stable_name),
     dict [("id", VInt (id r));
           ("driver_name", VStr (Result.driver_name (cols r)));
           ("race_time", VFloat (Result.race_time (cols r)));
           ("stage_name", VStr stage_name);
           ("stable_name", VStr stable_name)]) <$> join_query db
  = omap (details_of db) (select (results db)).
Proof.
  unfold join_query. induction (select (results db)) as [|r l IH]; [done|].
  rewrite bind_cons, fmap_app, IH. cbn [omap list_omap]. unfold details_of at 2.
  rewrite !select_by_ref.
  destruct (stages db !! _) as [stage|]; [|done].
  rewrite bind_cons.
  destruct (stables db !! _) as [stable|]; done.
Qed.

(** C6: the listing with details has, for each Result whose stage
    reference and stable reference both resolve, one row carrying the name of
    that Stage and of that Stable, and nothing for a Result one of whose
    references does not resolve; it does not fail on such a Result. *)
Theorem get_results_with_details_inner_join (db : Database) (fs : list bool) :
  store_ok fs →
  dispatch get_results_with_details db fs =
  (Return
     (omap (λ r : row Result.t,
              match stages db !! Result.stage_id (cols r),
                    stables db !! Result.stable_id (cols r) with
              | Some stage, Some stable =>
                  Some (dict [("id", VInt (id r));
                              ("driver_name", VStr (Result.driver_name (cols r)));
                              ("race_time", VFloat (Result.race_time (cols r)));
                              ("stage_name", VStr (Stage.name stage));
                              ("stable_name", VStr (Stable.name stable))])
              | _, _ => None
              end)
           (select (results db))),
   db).
Proof.
  intros Hok. unfold dispatch, get_results_with_details, bind.
  rewrite execute_ok by done. simpl. unfold ret.
  by rewrite join_query_details.
Qed.

(** C10: every row of the listing with details has the five fields id,
    driver_name, race_time, stage_name and stable_name and no other; laps,
    pit_stops, position, stage_id and stable_id are not in it. *)
Theorem get_results_with_details_fields (db : Database) (fs : list bool) :
  store_ok fs →
  ∃ out,
    dispatch get_results_with_details db fs = (Return out, db)
    ∧ ∀ d, d ∈ out →
        dom d = {[ "id"; "driver_name"; "race_time";
                   "stage_name"; "stable_name" ]}
        ∧ d !! "laps" = None ∧ d !! "pit_stops" = None
        ∧ d !! "position" = None
        ∧ d !! "stage_id" = None ∧ d !! "stable_id" = None.
Proof.
  intros Hok. eexists. split.
  { unfold dispatch, get_results_with_details, bind.
    by rewrite execute_ok by done. }
  simpl. intros d ([[r stage_name] stable_name] & -> & _)%list_elem_of_fmap.
  unfold dict. cbn [foldl fst snd]. split.
  - rewrite !dom_insert_L, dom_empty_L. set_solver.
  - by repeat split.
Qed.

(** ** Average race time per stage *)









(** ** Update and delete of one row *)

Lemma alter_Some_insert {A} (f : A → A) (m : gmap Z A) (k : Z) (x : A) :
  m !! k = Some x → alter f k m = <[k := f x]> m.
Proof.
  intros Hk. apply map_eq. intros j. rewrite lookup_alter, lookup_insert.
  case_decide; subst; by rewrite ?Hk.
Qed.

(** Assigning a list of attributes to one object, one after the other. *)
Ltac for_each_setattr setattr_obj set_table :=
  let IH := fresh "IH" in
  match goal with
  | |- ∀ s, for_each ?items _ s = _ => induction items as [|? ? IH]
  end;
  intros [? [? ? ?] ?]; simpl;
  [ unfold ret, set_table; simpl; by rewrite alter_id
  | unfold bind, setattr_obj, modify; simpl; rewrite IH;
    unfold set_table; simpl; by rewrite alter_alter_eq ].

Lemma for_each_setattr_stage (obj : row Stage.t) (items : list Stage.attr) s :
  for_each items (λ kv, setattr_stage obj kv) s
  = (Return tt,
     MkSession (stored s)
       (set_stages (alter (λ r, foldl Stage.setattr r items) (id obj))
                   (pending s))
       (faults s)).
Proof. revert s. for_each_setattr setattr_stage set_stages. Qed.

Lemma for_each_setattr_stable (obj : row Stable.t) (items : list Stable.attr) s :
  for_each items (λ kv, setattr_stable obj kv) s
  = (Return tt,
     MkSession (stored s)
       (set_stables (alter (λ r, foldl Stable.setattr r items) (id obj))
                    (pending s))
       (faults s)).
Proof. revert s. for_each_setattr setattr_stable set_stables. Qed.

Lemma for_each_setattr_result_attrs
    (obj : row Result.t) (items : list Result.attr) s :
  for_each items (λ kv, setattr_result obj kv) s
  = (Return tt,
     MkSession (stored s)
       (set_results (alter (λ r, foldl Result.setattr r items) (id obj))
                    (pending s))
       (faults s)).
Proof. revert s. for_each_setattr setattr_result set_results. Qed.

(** The first steps of every update and delete: the row is looked up by
    its primary key. *)
Ltac lookup_step Hok :=
  unfold dispatch, try_except, bind;
  rewrite execute_ok by done; cbn [pending stored faults];
  rewrite select_by_id.

Ltac lookup_step_any fs' :=
  unfold dispatch, try_except, bind;
  match goal with
  | |- context [execute ?q (MkSession ?db ?db fs')] =>
      destruct (execute_cases q (MkSession db db fs'))
        as (? & ? & -> & [->| ->]);
      cbn [pending stored faults]; [rewrite select_by_id|]
  end.

Lemma update_stage_spec (k : Z) (u : StageUpdate.t) (db : Database) fs :
  store_ok fs →
  match stages db !! k with
  | Some old =>
      ∃ new,
        dispatch (update_stage k u) db fs
        = (Return (Some (k, new)), set_stages <[k := new]> db)
        ∧ Stage.name new = default (Stage.name old) (StageUpdate.name u)
        ∧ Stage.country new
          = default (Stage.country old) (StageUpdate.country u)
        ∧ Stage.date new = default (Stage.date old) (StageUpdate.date u)
        ∧ Stage.lap_length new
          = default (Stage.lap_length old) (StageUpdate.lap_length u)
        ∧ Stage.attendance new
          = default (Stage.attendance old) (StageUpdate.attendance u)
  | None => ∀ fs', dispatch (update_stage k u) db fs' = (Return None, db)
  end.
Proof.
  intros Hok. destruct (stages db !! k) as [old|] eqn:Hk.
  - exists (foldl Stage.setattr old (StageUpdate.items u)). split.
    + unfold update_stage. lookup_step Hok. rewrite Hk. simpl.
      rewrite for_each_setattr_stage. simpl.
      rewrite commit_ok;
        [|store_ok_tac|apply foreign_keys_stages_altered]. simpl.
      rewrite refresh_ok by (simpl; by do 2 apply store_ok_tail). simpl.
      unfold set_stages, ret. simpl.
      rewrite !(alter_Some_insert _ _ _ old) by done.
      by rewrite lookup_insert_eq.
    + destruct u as [[?|] [?|] [?|] [?|] [?|]]; by repeat split.
  - intros fs'. unfold update_stage. lookup_step_any fs'; [|done].
    by rewrite Hk.
Qed.

Lemma update_stable_spec (k : Z) (u : StableUpdate.t) (db : Database) fs :
  store_ok fs →
  match stables db !! k with
  | Some old =>
      ∃ new,
        dispatch (update_stable k u) db fs
        = (Return (Some (k, new)), set_stables <[k := new]> db)
        ∧ Stable.name new = default (Stable.name old) (StableUpdate.name u)
        ∧ Stable.country new
          = default (Stable.country old) (StableUpdate.country u)
        ∧ Stable.motor new = default (Stable.motor old) (StableUpdate.motor u)
        ∧ Stable.tire new = default (Stable.tire old) (StableUpdate.tire u)
  | None => ∀ fs', dispatch (update_stable k u) db fs' = (Return None, db)
  end.
Proof.
  intros Hok. destruct (stables db !! k) as [old|] eqn:Hk.
  - exists (foldl Stable.setattr old (StableUpdate.items u)). split.
    + unfold update_stable. lookup_step Hok. rewrite Hk. simpl.
      rewrite for_each_setattr_stable. simpl.
      rewrite commit_ok;
        [|store_ok_tac|apply foreign_keys_stables_altered]. simpl.
      rewrite refresh_ok by (simpl; by do 2 apply store_ok_tail). simpl.
      unfold set_stables, ret. simpl.
      rewrite !(alter_Some_insert _ _ _ old) by done.
      by rewrite lookup_insert_eq.
    + destruct u as [[?|] [?|] [?|] [?|]]; by repeat split.
  - intros fs'. unfold update_stable. lookup_step_any fs'; [|done].
    by rewrite Hk.
Qed.

(** The unit of work of an update of the Result [k], at its commit. *)
Lemma update_result_pending (k : Z) (old : Result.t) (u : ResultUpdate.t)
    (db : Database) :
  results db !! k = Some old →
  set_results (alter (λ r, foldl Result.setattr r (ResultUpdate.items u)) k) db
  = set_results <[k := foldl Result.setattr old (ResultUpdate.items u)]> db.
Proof.
  intros Hk. unfold set_results. by rewrite (alter_Some_insert _ _ _ old).
Qed.

(** An update of a Result whose references the store accepts. *)
Lemma update_result_accepted (k : Z) (u : ResultUpdate.t) (db : Database)
    (old : Result.t) fs :
  store_ok fs →
  results db !! k = Some old →
  references_accepted db old (foldl Result.setattr old (ResultUpdate.items u)) →
  dispatch (update_result k u) db fs
  = (Return (Some (k, foldl Result.setattr old (ResultUpdate.items u))),
     set_results <[k := foldl Result.setattr old (ResultUpdate.items u)]> db).
Proof.
  intros Hok Hk Hacc. unfold update_result. lookup_step Hok. rewrite Hk.
  simpl. rewrite for_each_setattr_result_attrs.
  cbn [stored pending faults id fst].
  rewrite (update_result_pending k old) by done.
  rewrite commit_ok;
    [|store_ok_tac|by apply (foreign_keys_result_updated db k old)].
  cbn [stored pending faults].
  rewrite refresh_ok by (simpl; by do 2 apply store_ok_tail). simpl.
  unfold ret. by rewrite lookup_insert_eq.
Qed.

(** An update of a Result that sets a reference the store refuses. *)
Lemma update_result_refused (k : Z) (u : ResultUpdate.t) (db : Database)
    (old : Result.t) fs :
  results db !! k = Some old →
  ¬ references_accepted db old
      (foldl Result.setattr old (ResultUpdate.items u)) →
  dispatch (update_result k u) db fs = (Return None, db).
Proof.
  intros Hk Hacc. unfold update_result. lookup_step_any fs; [|done].
  rewrite Hk. simpl. rewrite for_each_setattr_result_attrs.
  cbn [stored pending faults id fst].
  rewrite (update_result_pending k old) by done.
  unfold commit, bind.
  match goal with
  | |- context [round_trip ?s] =>
      destruct (round_trip_cases s) as (? & ? & -> & [->| ->])
  end; [|done].
  cbn [stored pending faults]. rewrite decide_False; [done|].
  intros Hfk. by apply Hacc, (foreign_keys_result_updated db k old).
Qed.

Lemma update_result_spec (k : Z) (u : ResultUpdate.t) (db : Database) fs :
  store_ok fs →
  match results db !! k with
  | Some old =>
      ∃ new,
        (Result.driver_name new
         = default (Result.driver_name old) (ResultUpdate.driver_name u)
         ∧ Result.race_time new
           = default (Result.race_time old) (ResultUpdate.race_time u)
         ∧ Result.laps new = default (Result.laps old) (ResultUpdate.laps u)
         ∧ Result.position new
           = default (Result.position old) (ResultUpdate.position u)
         ∧ Result.pit_stops new
           = default (Result.pit_stops old) (ResultUpdate.pit_stops u)
         ∧ Result.stable_id new
           = default (Result.stable_id old) (ResultUpdate.stable_id u)
         ∧ Result.stage_id new
           = default (Result.stage_id old) (ResultUpdate.stage_id u))
        ∧ if decide (references_accepted db old new)
          then dispatch (update_result k u) db fs
               = (Return (Some (k, new)), set_results <[k := new]> db)
          else ∀ fs', dispatch (update_result k u) db fs' = (Return None, db)
  | None => ∀ fs', dispatch (update_result k u) db fs' = (Return None, db)
  end.
Proof.
  intros Hok. destruct (results db !! k) as [old|] eqn:Hk.
  - exists (foldl Result.setattr old (ResultUpdate.items u)). split.
    + destruct u as [[?|] [?|] [?|] [?|] [?|] [?|] [?|]]; by repeat split.
    + case_decide as Hacc.
      * by apply update_result_accepted.
      * intros fs'. by apply (update_result_refused k u db old).
  - intros fs'. unfold update_result. lookup_step_any fs'; [|done].
    by rewrite Hk.
Qed.

(** C7: for Stage, Stable and Result alike, the update of an existing row
    gives that row the values of the fields the partial input sets and
    keeps its other fields, every other row and the other tables, provided
    that, for a Result, each reference it is left with is the one it had or
    names a stored row; a Result left with another reference is not
    updated: the update returns [None] and the stored state is as it was,
    whatever the store does; and so it is for an absent identifier. *)
Theorem update_overwrites_set_fields_only
    (k : Z) (db : Database) (fs : list bool) :
  store_ok fs →
  (∀ u : StageUpdate.t,
     match stages db !! k with
     | Some old =>
         ∃ new,
           dispatch (update_stage k u) db fs
           = (Return (Some (k, new)), set_stages <[k := new]> db)
           ∧ Stage.name new = default (Stage.name old) (StageUpdate.name u)
           ∧ Stage.country new
             = default (Stage.country old) (StageUpdate.country u)
           ∧ Stage.date new
             = default (Stage.date old) (StageUpdate.date u)
           ∧ Stage.lap_length new
             = default (Stage.lap_length old) (StageUpdate.lap_length u)
           ∧ Stage.attendance new
             = default (Stage.attendance old) (StageUpdate.attendance u)
     | None => ∀ fs', dispatch (update_stage k u) db fs' = (Return None, db)
     end)
  ∧ (∀ u : StableUpdate.t,
       match stables db !! k with
       | Some old =>
           ∃ new,
             dispatch (update_stable k u) db fs
             = (Return (Some (k, new)), set_stables <[k := new]> db)
             ∧ Stable.name new
               = default (Stable.name old) (StableUpdate.name u)
             ∧ Stable.country new
               = default (Stable.country old) (StableUpdate.country u)
             ∧ Stable.motor new
               = default (Stable.motor old) (StableUpdate.motor u)
             ∧ Stable.tire new
               = default (Stable.tire old) (StableUpdate.tire u)
       | None =>
           ∀ fs', dispatch (update_stable k u) db fs' = (Return None, db)
       end)
  ∧ (∀ u : ResultUpdate.t,
       match results db !! k with
       | Some old =>
           ∃ new,
             (Result.driver_name new
              = default (Result.driver_name old) (ResultUpdate.driver_name u)
              ∧ Result.race_time new
                = default (Result.race_time old) (ResultUpdate.race_time u)
              ∧ Result.laps new
                = default (Result.laps old) (ResultUpdate.laps u)
              ∧ Result.position new
                = default (Result.position old) (ResultUpdate.position u)
              ∧ Result.pit_stops new
                = default (Result.pit_stops old) (ResultUpdate.pit_stops u)
              ∧ Result.stable_id new
                = default (Result.stable_id old) (ResultUpdate.stable_id u)
              ∧ Result.stage_id new
                = default (Result.stage_id old) (ResultUpdate.stage_id u))
             ∧ if decide (references_accepted db old new)
               then dispatch (update_result k u) db fs
                    = (Return (Some (k, new)), set_results <[k := new]> db)
               else ∀ fs',
                      dispatch (update_result k u) db fs' = (Return None, db)
       | None =>
           ∀ fs', dispatch (update_result k u) db fs' = (Return None, db)
       end).
Proof.
  intros Hok. split; [|split]; intros u.
  - by apply update_stage_spec.
  - by apply update_stable_spec.
  - by apply update_result_spec.
Qed.

(** The commit of a delete, whatever the store does. *)
Ltac delete_any_faults :=
  unfold commit, bind;
  match goal with
  | |- context [round_trip ?s] =>
      destruct (round_trip_cases s) as (? & ? & -> & [->| ->])
  end; cbn [stored pending faults]; [case_decide|]; simpl; eauto.

Lemma delete_stage_spec (k : Z) (db : Database) :
  (∀ fs, store_ok fs → is_Some (stages db !! k) →
         (∀ j r, results db !! j = Some r → Result.stage_id r ≠ k) →
         dispatch (delete_stage k) db fs
         = (Return true, set_stages (delete k) db))
  ∧ (∀ fs, stages db !! k = None →
           dispatch (delete_stage k) db fs = (Return false, db))
  ∧ (∀ fs j r, results db !! j = Some r → Result.stage_id r = k →
               dispatch (delete_stage k) db fs = (Return false, db))
  ∧ (∀ fs, ∃ b db',
       dispatch (delete_stage k) db fs = (Return b, db')
       ∧ (b = false → db' = db)).
Proof.
  split; [|split; [|split]].
  - intros fs Hok [old Hk] Hfree. unfold delete_stage. lookup_step Hok.
    rewrite Hk. simpl.
    rewrite commit_ok; [done|store_ok_tac|].
    apply (foreign_keys_stage_deleted db k); [by eexists|done].
  - intros fs Hk. unfold delete_stage. lookup_step_any fs; [|done].
    by rewrite Hk.
  - intros fs j r Hj Hr. unfold delete_stage. lookup_step_any fs; [|done].
    destruct (stages db !! k) as [old|] eqn:Hk; simpl; [|done].
    unfold commit, bind.
    match goal with
    | |- context [round_trip ?s] =>
        destruct (round_trip_cases s) as (? & ? & -> & [->| ->])
    end; [|done].
    cbn [stored pending faults]. rewrite decide_False; [done|].
    intros Hfk.
    exact (proj1 (foreign_keys_stage_deleted db k (mk_is_Some _ _ Hk)) Hfk
             j r Hj Hr).
  - intros fs. unfold delete_stage. lookup_step_any fs; [|by eauto].
    destruct (stages db !! k) as [old|]; simpl; [|by eauto].
    delete_any_faults.
    eexists _, _. split; [done|]. done.
Qed.

Lemma delete_stable_spec (k : Z) (db : Database) :
  (∀ fs, store_ok fs → is_Some (stables db !! k) →
         (∀ j r, results db !! j = Some r → Result.stable_id r ≠ k) →
         dispatch (delete_stable k) db fs
         = (Return true, set_stables (delete k) db))
  ∧ (∀ fs, stables db !! k = None →
           dispatch (delete_stable k) db fs = (Return false, db))
  ∧ (∀ fs j r, results db !! j = Some r → Result.stable_id r = k →
               dispatch (delete_stable k) db fs = (Return false, db))
  ∧ (∀ fs, ∃ b db',
       dispatch (delete_stable k) db fs = (Return b, db')
       ∧ (b = false → db' = db)).
Proof.
  split; [|split; [|split]].
  - intros fs Hok [old Hk] Hfree. unfold delete_stable. lookup_step Hok.
    rewrite Hk. simpl.
    rewrite commit_ok; [done|store_ok_tac|].
    apply (foreign_keys_stable_deleted db k); [by eexists|done].
  - intros fs Hk. unfold delete_stable. lookup_step_any fs; [|done].
    by rewrite Hk.
  - intros fs j r Hj Hr. unfold delete_stable. lookup_step_any fs; [|done].
    destruct (stables db !! k) as [old|] eqn:Hk; simpl; [|done].
    unfold commit, bind.
    match goal with
    | |- context [round_trip ?s] =>
        destruct (round_trip_cases s) as (? & ? & -> & [->| ->])
    end; [|done].
    cbn [stored pending faults]. rewrite decide_False; [done|].
    intros Hfk.
    exact (proj1 (foreign_keys_stable_deleted db k (mk_is_Some _ _ Hk)) Hfk
             j r Hj Hr).
  - intros fs. unfold delete_stable. lookup_step_any fs; [|by eauto].
    destruct (stables db !! k) as [old|]; simpl; [|by eauto].
    delete_any_faults.
    eexists _, _. split; [done|]. done.
Qed.

Lemma delete_result_spec (k : Z) (db : Database) :
  (∀ fs, store_ok fs → is_Some (results db !! k) →
         dispatch (delete_result k) db fs
         = (Return true, set_results (delete k) db))
  ∧ (∀ fs, results db !! k = None →
           dispatch (delete_result k) db fs = (Return false, db))
  ∧ (∀ fs, ∃ b db',
       dispatch (delete_result k) db fs = (Return b, db')
       ∧ (b = false → db' = db)).
Proof.
  split; [|split].
  - intros fs Hok [old Hk]. unfold delete_result. lookup_step Hok. rewrite Hk.
    simpl.
    rewrite commit_ok;
      [done|store_ok_tac|apply (foreign_keys_result_deleted db k)].
  - intros fs Hk. unfold delete_result. lookup_step_any fs; [|done].
    by rewrite Hk.
  - intros fs. unfold delete_result. lookup_step_any fs; [|by eauto].
    destruct (results db !! k) as [old|]; simpl; [|by eauto].
    delete_any_faults.
    eexists _, _. split; [done|]. done.
Qed.

(** C8: deleting a Result that has a row removes that row, no other, and
    returns true; so does deleting a Stage or a Stable that has a row which
    no stored Result names, while one that a stored Result names is not
    deleted: delete returns false and the stored state is as it was,
    whatever the store does; deleting an identifier that has no row returns
    false and leaves the stored state as it was; and whatever the store
    does, delete returns a boolean instead of raising, with nothing changed
    when that is false. *)
Theorem delete_removes_or_reports_false (k : Z) (db : Database) :
  ((∀ fs, store_ok fs → is_Some (stages db !! k) →
          (∀ j r, results db !! j = Some r → Result.stage_id r ≠ k) →
          dispatch (delete_stage k) db fs
          = (Return true, set_stages (delete k) db))
   ∧ (∀ fs, stages db !! k = None →
            dispatch (delete_stage k) db fs = (Return false, db))
   ∧ (∀ fs j r, results db !! j = Some r → Result.stage_id r = k →
                dispatch (delete_stage k) db fs = (Return false, db))
   ∧ (∀ fs, ∃ b db',
        dispatch (delete_stage k) db fs = (Return b, db')
        ∧ (b = false → db' = db)))
  ∧ ((∀ fs, store_ok fs → is_Some (stables db !! k) →
            (∀ j r, results db !! j = Some r → Result.stable_id r ≠ k) →
            dispatch (delete_stable k) db fs
            = (Return true, set_stables (delete k) db))
     ∧ (∀ fs, stables db !! k = None →
              dispatch (delete_stable k) db fs = (Return false, db))
     ∧ (∀ fs j r, results db !! j = Some r → Result.stable_id r = k →
                  dispatch (delete_stable k) db fs = (Return false, db))
     ∧ (∀ fs, ∃ b db',
          dispatch (delete_stable k) db fs = (Return b, db')
          ∧ (b = false → db' = db)))
  ∧ ((∀ fs, store_ok fs → is_Some (results db !! k) →
            dispatch (delete_result k) db fs
            = (Return true, set_results (delete k) db))
     ∧ (∀ fs, results db !! k = None →
              dispatch (delete_result k) db fs = (Return false, db))
     ∧ (∀ fs, ∃ b db',
          dispatch (delete_result k) db fs = (Return b, db')
          ∧ (b = false → db' = db))).
Proof.
  split; [apply delete_stage_spec|].
  split; [apply delete_stable_spec | apply delete_result_spec].
Qed.

(** ** Required and optional fields of the creation payloads *)

(** A payload that validates as a Result has its pit stops and its
    position, and one that validates as a Stage has its attendance. *)
Lemma ResultBase_validate_requires (body : gmap string value) r :
  ResultBase.validate body = Some r →
  body !! "pit_stops" = Some (VInt (ResultBase.pit_stops r))
  ∧ body !! "position" = Some (VInt (ResultBase.position r)).
Proof.
  unfold ResultBase.validate, field_int. intros H.
  repeat (match type of H with
          | (_ ≫= _) = Some _ =>
              apply bind_Some in H as (? & ? & H)
          end).
  destruct (body !! "pit_stops") as [[]|]; try done.
  destruct (body !! "position") as [[]|]; try done.
  by simplify_eq.
Qed.

Lemma StageBase_validate_requires (body : gmap string value) r :
  StageBase.validate body = Some r →
  body !! "attendance" = Some (VInt (StageBase.attendance r)).
Proof.
  unfold StageBase.validate, field_int. intros H.
  repeat (match type of H with
          | (_ ≫= _) = Some _ =>
              apply bind_Some in H as (? & ? & H)
          end).
  destruct (body !! "attendance") as [[]|]; try done.
  by simplify_eq.
Qed.

(** C9: the creation payload of the scenario's Result validates, but is
    rejected once its pit stops or its position is left out; the Stage
    payload is rejected once its attendance is left out; the Stable payload
    validates without motor and tire, which are stored as absent. *)
Theorem create_payload_required_fields :
  ResultBase.validate max_body = Some max_result
  ∧ ResultBase.validate (delete "pit_stops" max_body) = None
  ∧ ResultBase.validate (delete "position" max_body) = None
  ∧ StageBase.validate monza_body
    = Some (StageBase.Build "Monza" "Italy" (datetime.Date 2024 5 1) 40000 (579 # 100))
  ∧ StageBase.validate (delete "attendance" monza_body) = None
  ∧ StableBase.validate red_bull_body
    = Some (StableBase.Build "Red Bull" "Austria" None None).
Proof. repeat split; vm_compute; reflexivity. Qed.

(** ** The properties on the scenario *)

Lemma store_ok_nil : store_ok [].
Proof. constructor. Defined.

Lemma store_ok_answers : store_ok [false; false; false; false].
Proof. repeat constructor. Defined.

Lemma create_result_checks_references_witness :
  store_ok [false; false; false; false]
  ∧ dispatch (create_result max_result) db_references
             [false; false; false; false]
    = (Return (1, Result_of max_result),
       set_results <[1 := Result_of max_result]> db_references).
Proof.
  split; [exact store_ok_answers|].
  destruct (create_result_checks_references
              max_result db_references [false; false; false; false]
              store_ok_answers) as (_ & Heq & _).
  exact Heq.
Defined.

Lemma get_filtered_results_exact_witness :
  store_ok []
  ∧ ∃ out,
      dispatch (get_filtered_results 1 1) db_scenario [] = (Return out, db_scenario)
      ∧ NoDup out
      ∧ (∀ k r, (k, r) ∈ out ↔
                results db_scenario !! k = Some r
                ∧ Result.stage_id r = 1 ∧ Result.stable_id r = 1)
      ∧ ((∀ k r, results db_scenario !! k = Some r →
                 ¬ (Result.stage_id r = 1 ∧ Result.stable_id r = 1)) →
         out = []).
Proof.
  split; [exact store_ok_nil|].
  exact (get_filtered_results_exact 1 1 db_scenario [] store_ok_nil).
Defined.

Lemma get_sorted_results_order_witness :
  store_ok [] ∧ lower "DESC" = "desc"
  ∧ ∃ out,
      dispatch (get_sorted_results "DESC") db_scenario [] = (Return out, db_scenario)
      ∧ out ≡ₚ select (results db_scenario)
      ∧ StronglySorted race_time_desc out.
Proof.
  split; [exact store_ok_nil|]. split; [reflexivity|].
  destruct (get_sorted_results_order "DESC" db_scenario [] store_ok_nil)
    as (_ & Hdesc & _).
  apply Hdesc. reflexivity.
Defined.

Lemma update_laps_above_threshold_witness :
  store_ok [false; false]
  ∧ ∃ db',
      dispatch (update_laps (92 # 1) 60) db_scenario [false; false]
      = (Return (dict [("message", VStr "2 results updated.")]), db')
      ∧ results db' !! 2 = Some second_result
      ∧ ∃ r', results db' !! 1 = Some r' ∧ Result.laps r' = 60.
Proof.
  assert (store_ok [false; false]) as Hok by repeat constructor.
  split; [exact Hok|].
  destruct (update_laps_above_threshold (92 # 1) 60 db_scenario [false; false]
              Hok) as (db' & Heq & _ & _ & _ & Hkeep & Hset).
  exists db'. split; [|split].
  - rewrite Heq. reflexivity.
  - apply Hkeep; [reflexivity|]. vm_compute. discriminate.
  - destruct (Hset 1 (Result_of max_result)) as (r' & Hr' & Hlaps & _);
      [reflexivity | reflexivity |]. by exists r'.
Defined.



Lemma get_results_with_details_inner_join_witness :
  store_ok []
  ∧ dispatch get_results_with_details db_scenario []
    = (Return
         [dict [("id", VInt 2); ("driver_name", VStr "Sergio");
                ("race_time", VFloat (90 # 1)); ("stage_name", VStr "Monza");
                ("stable_name", VStr "Red Bull")];
          dict [("id", VInt 1); ("driver_name", VStr "Max");
                ("race_time", VFloat (952 # 10)); ("stage_name", VStr "Monza");
                ("stable_name", VStr "Red Bull")]],
       db_scenario).
Proof.
  split; [exact store_ok_nil|].
  rewrite (get_results_with_details_inner_join db_scenario [] store_ok_nil).
  reflexivity.
Defined.

Lemma get_results_with_details_fields_witness :
  store_ok []
  ∧ ∃ out,
      dispatch get_results_with_details db_scenario [] = (Return out, db_scenario)
      ∧ ∀ d, d ∈ out →
          dom d = {[ "id"; "driver_name"; "race_time";
                     "stage_name"; "stable_name" ]}
          ∧ d !! "laps" = None ∧ d !! "pit_stops" = None
          ∧ d !! "position" = None
          ∧ d !! "stage_id" = None ∧ d !! "stable_id" = None.
Proof.
  split; [exact store_ok_nil|].
  exact (get_results_with_details_fields db_scenario [] store_ok_nil).
Defined.

Lemma update_overwrites_set_fields_only_witness :
  store_ok []
  ∧ dispatch
      (update_result 2
         (ResultUpdate.Build None None (Some 50) (Some None) None None None))
      db_scenario []
    = (Return (Some (2, Result.Build 1 1 "Sergio" (90 # 1) 50 (Some 3) None)),
       set_results
         <[2 := Result.Build 1 1 "Sergio" (90 # 1) 50 (Some 3) None]>
         db_scenario)
  ∧ dispatch
      (update_result 2
         (ResultUpdate.Build None None None None None (Some 7) None))
      db_scenario [false; false; true]
    = (Return None, db_scenario)
  ∧ dispatch
      (update_stage 7 (StageUpdate.Build (Some "Imola") None None None None))
      db_scenario []
    = (Return None, db_scenario).
Proof.
  split; [exact store_ok_nil|].
  destruct (update_overwrites_set_fields_only 2 db_scenario [] store_ok_nil)
    as (_ & _ & Hresult).
  destruct (update_overwrites_set_fields_only 7 db_scenario [] store_ok_nil)
    as (Hstage & _ & _).
  split; [|split].
  - destruct (Hresult (ResultUpdate.Build None None (Some 50) (Some None)
                         None None None))
      as (new & Hfields & Hres).
    destruct new; simpl in Hfields.
    destruct Hfields as (-> & -> & -> & -> & -> & -> & ->).
    rewrite decide_True in Hres by (split; by left). exact Hres.
  - destruct (Hresult (ResultUpdate.Build None None None None None
                         (Some 7) None))
      as (new & Hfields & Hres).
    destruct new; simpl in Hfields.
    destruct Hfields as (-> & -> & -> & -> & -> & -> & ->).
    rewrite decide_False in Hres; [exact (Hres [false; false; true])|].
    intros [_ [Heq|[x Hx]]]; [done|by vm_compute in Hx].
  - exact (Hstage (StageUpdate.Build (Some "Imola") None None None None) []).
Defined.

(** The second result of the scenario cannot be moved to stage 99, which
    does not exist: the update returns [None] and nothing is changed,
    although the result is stored and the store raises no error of its
    own. *)
Example update_result_unknown_stage :
  results db_two_results !! 2 = Some second_result
  ∧ stages db_two_results !! 99 = None
  ∧ dispatch
      (update_result 2
         (ResultUpdate.Build None None None None None None (Some 99)))
      db_two_results []
    = (Return None, db_two_results).
Proof. repeat split; vm_compute; reflexivity. Qed.

Lemma delete_removes_or_reports_false_witness :
  store_ok [] ∧ is_Some (results db_scenario !! 3)
  ∧ stages db_scenario !! 7 = None
  ∧ results db_scenario !! 2 = Some second_result
  ∧ Result.stable_id second_result = 1
  ∧ dispatch (delete_result 3) db_scenario []
    = (Return true, set_results (delete 3) db_scenario)
  ∧ dispatch (delete_stage 7) db_scenario [true] = (Return false, db_scenario)
  ∧ dispatch (delete_stable 1) db_scenario [false; false]
    = (Return false, db_scenario)
  ∧ dispatch (delete_stage 1) db_references []
    = (Return true, set_stages (delete 1) db_references).
Proof.
  split; [exact store_ok_nil|].
  assert (is_Some (results db_scenario !! 3)) as Hsome by (by eexists).
  split; [exact Hsome|]. do 3 (split; [reflexivity|]).
  destruct (delete_removes_or_reports_false 3 db_scenario)
    as (_ & _ & Hresult & _).
  destruct (delete_removes_or_reports_false 7 db_scenario)
    as ((_ & Hstage & _) & _).
  destruct (delete_removes_or_reports_false 1 db_scenario)
    as (_ & (_ & _ & Hstable & _) & _).
  destruct (delete_removes_or_reports_false 1 db_references)
    as ((Hfree & _) & _).
  split; [|split; [|split]].
  - exact (Hresult [] store_ok_nil Hsome).
  - exact (Hstage [true] eq_refl).
  - exact (Hstable [false; false] 2 second_result eq_refl eq_refl).
  - apply (Hfree [] store_ok_nil); [by eexists|]. intros j r Hj.
    simpl in Hj. by rewrite lookup_empty in Hj.
Defined.

(** The stage of the scenario, which its two results name, cannot be
    deleted: delete returns false and nothing is removed, although the
    stage is stored and the store raises no error of its own. *)
Example delete_stage_in_use :
  stages db_two_results !! 1 = Some monza
  ∧ results db_two_results !! 2 = Some second_result
  ∧ Result.stage_id second_result = 1
  ∧ dispatch (delete_stage 1) db_two_results []
    = (Return false, db_two_results).
Proof. repeat split; vm_compute; reflexivity. Qed.

(** The listing of the scenario sorted downwards: the result of 95.2
    minutes comes before the one of 90. *)
Example sorted_desc_scenario :
  dispatch (get_sorted_results "desc")
           (MkDatabase {[1 := monza]} {[1 := red_bull]}
              (<[2 := second_result]> {[1 := Result_of max_result]})) []
  = (Return [(1, Result_of max_result); (2, second_result)],
     MkDatabase {[1 := monza]} {[1 := red_bull]}
       (<[2 := second_result]> {[1 := Result_of max_result]})).
Proof. vm_compute. reflexivity. Qed.

(** A result of the scenario naming stage 99, which does not exist, is
    refused and nothing is stored. *)
Example create_result_unknown_stage :
  dispatch (create_result (ResultBase.Build "Max" (952 # 10) 53 1 2 1 99))
           db_references []
  = (Raise (HTTPException 400 "Invalid stage_id: does not exist"),
     db_references).
Proof. vm_compute. reflexivity. Qed.

(** * Further properties of the handlers and services *)

(** ** Handlers that only read *)

Lemma writes_nothing_ret {A} (a : A) : writes_nothing (ret a).
Proof. by intros s. Qed.

Lemma writes_nothing_raise {A} (e : exn) : writes_nothing (@raise A e).
Proof. by intros s. Qed.

Lemma writes_nothing_bind {A B} (m : Await A) (k : A → Await B) :
  writes_nothing m → (∀ a, writes_nothing (k a)) → writes_nothing (bind m k).
Proof.
  intros Hm Hk s. unfold bind. specialize (Hm s).
  destruct (m s) as [[a|e] s']; simpl in *; [|done].
  by rewrite Hk.
Qed.

Lemma writes_nothing_try_except {A} (m h : Await A) :
  writes_nothing m → writes_nothing h → writes_nothing (try_except m h).
Proof.
  intros Hm Hh s. unfold try_except. specialize (Hm s).
  destruct (m s) as [[a|[c d|]] s']; simpl in *; try done.
  by rewrite Hh.
Qed.

Lemma writes_nothing_execute {A} (query : Database → A) :
  writes_nothing (execute query).
Proof.
  intros s. destruct (execute_cases query s) as (o & fs' & -> & _). done.
Qed.

Lemma writes_nothing_scalar_one_or_none {A} (rows : list A) :
  writes_nothing (scalar_one_or_none rows).
Proof. by destruct rows as [|? [|? ?]]. Qed.

Lemma dispatch_writes_nothing {A} (h : Await A) (db : Database) fs :
  writes_nothing h → (dispatch h db fs).2 = db.
Proof.
  intros Hh. unfold dispatch. specialize (Hh (MkSession db db fs)).
  by destruct (h _) as [o s].
Qed.

Ltac writes_nothing :=
  repeat first
    [ apply writes_nothing_execute
    | apply writes_nothing_scalar_one_or_none
    | apply writes_nothing_ret
    | apply writes_nothing_raise
    | apply writes_nothing_try_except
    | apply writes_nothing_bind; [|intros ?]
    | match goal with
      | |- writes_nothing (match ?x with _ => _ end) => destruct x
      | |- writes_nothing (if ?b then _ else _) => destruct b
      end ].

(** X1: the listing, lookup, filter, join, sort and average handlers, and
    the listing and lookup services, never change what the database holds,
    whatever the store does and whether they return or raise. *)
Theorem read_handlers_write_nothing (db : Database) (fs : list bool) :
  (dispatch get_results db fs).2 = db
  ∧ (∀ k, (dispatch (get_result k) db fs).2 = db)
  ∧ (∀ s t, (dispatch (get_filtered_results s t) db fs).2 = db)
  ∧ (dispatch get_results_with_details db fs).2 = db
  ∧ (∀ order, (dispatch (get_sorted_results order) db fs).2 = db)
  ∧ (dispatch get_stages db fs).2 = db
  ∧ (∀ k, (dispatch (get_stage k) db fs).2 = db)
  ∧ (dispatch get_average_race_time_per_stage db fs).2 = db
  ∧ (dispatch get_stables db fs).2 = db
  ∧ (∀ k, (dispatch (get_stable k) db fs).2 = db)
  ∧ (dispatch stage_services.get_all_stages db fs).2 = db
  ∧ (∀ k, (dispatch (stage_services.get_stage_by_id k) db fs).2 = db)
  ∧ (dispatch stable_services.get_all_stables db fs).2 = db
  ∧ (∀ k, (dispatch (stable_services.get_stable_by_id k) db fs).2 = db)
  ∧ (dispatch result_services.get_all_results db fs).2 = db
  ∧ (∀ k, (dispatch (result_services.get_result_by_id k) db fs).2 = db).
Proof.
  repeat split; intros; apply dispatch_writes_nothing;
    unfold get_results, get_result, get_filtered_results,
      get_results_with_details, get_sorted_results, get_stages, get_stage,
      get_average_race_time_per_stage, execute_checked, get_stables,
      get_stable,
      stage_services.get_all_stages, stage_services.get_stage_by_id,
      stable_services.get_all_stables, stable_services.get_stable_by_id,
      result_services.get_all_results, result_services.get_result_by_id;
    writes_nothing.
Qed.

(** ** Lookup and listing *)

Lemma get_result_ok (k : Z) (db : Database) fs :
  store_ok fs →
  dispatch (get_result k) db fs
  = (match results db !! k with
     | Some r => Return (k, r)
     | None => Raise (HTTPException 404 "Result not found")
     end, db).
Proof.
  intros Hok. unfold dispatch, get_result, bind. rewrite execute_ok by done.
  cbn [pending]. rewrite select_by_id. by destruct (results db !! k).
Qed.

Lemma get_stage_ok (k : Z) (db : Database) fs :
  store_ok fs →
  dispatch (get_stage k) db fs
  = (match stages db !! k with
     | Some r => Return (k, r)
     | None => Raise (HTTPException 404 "Stage not found")
     end, db).
Proof.
  intros Hok. unfold dispatch, get_stage, bind. rewrite execute_ok by done.
  cbn [pending]. rewrite select_by_id. by destruct (stages db !! k).
Qed.

Lemma get_stable_ok (k : Z) (db : Database) fs :
  store_ok fs →
  dispatch (get_stable k) db fs
  = (match stables db !! k with
     | Some r => Return (k, r)
     | None => Raise (HTTPException 404 "Stable not found")
     end, db).
Proof.
  intros Hok. unfold dispatch, get_stable, bind. rewrite execute_ok by done.
  cbn [pending]. rewrite select_by_id. by destruct (stables db !! k).
Qed.

(** X2: on a store that answers, the lookup handlers return the row stored
    under the identifier, and answer 404, with the message of their entity,
    when there is none. *)
Theorem get_by_id_found_or_404 (k : Z) (db : Database) (fs : list bool) :
  store_ok fs →
  dispatch (get_result k) db fs
  = (match results db !! k with
     | Some r => Return (k, r)
     | None => Raise (HTTPException 404 "Result not found")
     end, db)
  ∧ dispatch (get_stage k) db fs
    = (match stages db !! k with
       | Some r => Return (k, r)
       | None => Raise (HTTPException 404 "Stage not found")
       end, db)
  ∧ dispatch (get_stable k) db fs
    = (match stables db !! k with
       | Some r => Return (k, r)
       | None => Raise (HTTPException 404 "Stable not found")
       end, db).
Proof.
  intros Hok. repeat split.
  - by apply get_result_ok.
  - by apply get_stage_ok.
  - by apply get_stable_ok.
Qed.

Lemma select_complete {A} (table : gmap Z A) :
  NoDup (select table)
  ∧ (∀ k r, (k, r) ∈ select table ↔ table !! k = Some r)
  ∧ length (select table) = size table.
Proof.
  unfold select. split; [apply NoDup_map_to_list|]. split.
  - intros k r. apply elem_of_map_to_list.
  - apply length_map_to_list.
Qed.

(** X3: on a store that answers, the listing handlers return every stored
    row of their table exactly once, and nothing else. *)
Theorem listings_complete (db : Database) (fs : list bool) :
  store_ok fs →
  (∃ out, dispatch get_results db fs = (Return out, db)
          ∧ NoDup out
          ∧ (∀ k r, (k, r) ∈ out ↔ results db !! k = Some r)
          ∧ length out = size (results db))
  ∧ (∃ out, dispatch get_stages db fs = (Return out, db)
            ∧ NoDup out
            ∧ (∀ k r, (k, r) ∈ out ↔ stages db !! k = Some r)
            ∧ length out = size (stages db))
  ∧ (∃ out, dispatch get_stables db fs = (Return out, db)
            ∧ NoDup out
            ∧ (∀ k r, (k, r) ∈ out ↔ stables db !! k = Some r)
            ∧ length out = size (stables db)).
Proof.
  intros Hok. repeat apply conj.
  - exists (select (results db)). split; [|apply select_complete].
    unfold dispatch, get_results, bind. by rewrite execute_ok.
  - exists (select (stages db)). split; [|apply select_complete].
    unfold dispatch, get_stages, bind. by rewrite execute_ok.
  - exists (select (stables db)). split; [|apply select_complete].
    unfold dispatch, get_stables, bind. by rewrite execute_ok.
Qed.

(** ** Creation followed by lookup *)

Lemma create_stage_ok (stage : StageCreate) (db : Database) fs :
  store_ok fs →
  dispatch (create_stage stage) db fs
  = (Return (next_id (stages db), Stage_of stage),
     set_stages <[next_id (stages db) := Stage_of stage]> db).
Proof.
  intros Hok. unfold dispatch, create_stage, bind, add_stage.
  cbn [pending stored faults]. commit_step.
  cbn [pending stored faults].
  rewrite refresh_ok by (simpl; by apply store_ok_tail). simpl.
  by rewrite lookup_insert_eq.
Qed.

Lemma create_stable_ok (stable : StableCreate) (db : Database) fs :
  store_ok fs →
  dispatch (create_stable stable) db fs
  = (Return (next_id (stables db), Stable_of stable),
     set_stables <[next_id (stables db) := Stable_of stable]> db).
Proof.
  intros Hok. unfold dispatch, create_stable, bind, add_stable.
  cbn [pending stored faults]. commit_step.
  cbn [pending stored faults].
  rewrite refresh_ok by (simpl; by apply store_ok_tail). simpl.
  by rewrite lookup_insert_eq.
Qed.

(** X4: on a store that answers, creating a Stage returns it under an
    identifier that no stored Stage had; a lookup of that identifier then
    returns the same record, and every Stage stored before is still found
    as it was.  The same holds for a Stable. *)
Theorem create_then_get (db : Database) (fs fs' : list bool) :
  store_ok fs → store_ok fs' →
  (∀ stage : StageCreate,
     ∃ k db',
       dispatch (create_stage stage) db fs = (Return (k, Stage_of stage), db')
       ∧ stages db !! k = None
       ∧ dispatch (get_stage k) db' fs' = (Return (k, Stage_of stage), db')
       ∧ ∀ j r, stages db !! j = Some r →
                dispatch (get_stage j) db' fs' = (Return (j, r), db'))
  ∧ (∀ stable : StableCreate,
       ∃ k db',
         dispatch (create_stable stable) db fs
         = (Return (k, Stable_of stable), db')
         ∧ stables db !! k = None
         ∧ dispatch (get_stable k) db' fs' = (Return (k, Stable_of stable), db')
         ∧ ∀ j r, stables db !! j = Some r →
                  dispatch (get_stable j) db' fs' = (Return (j, r), db')).
Proof.
  intros Hok Hok'. split.
  - intros stage. eexists _, _. split; [by apply create_stage_ok|].
    split; [apply next_id_fresh|].
    split.
    + rewrite (get_stage_ok _ _ fs' Hok'). simpl.
      by rewrite lookup_insert_eq.
    + intros j r Hj.
      rewrite (get_stage_ok _ _ fs' Hok'). simpl.
      rewrite lookup_insert_ne; [by rewrite Hj|].
      intros <-. by rewrite next_id_fresh in Hj.
  - intros stable. eexists _, _. split; [by apply create_stable_ok|].
    split; [apply next_id_fresh|].
    split.
    + rewrite (get_stable_ok _ _ fs' Hok'). simpl.
      by rewrite lookup_insert_eq.
    + intros j r Hj.
      rewrite (get_stable_ok _ _ fs' Hok'). simpl.
      rewrite lookup_insert_ne; [by rewrite Hj|].
      intros <-. by rewrite next_id_fresh in Hj.
Qed.

(** ** Creation of a Result: lookup afterwards, and the references kept *)

Lemma refresh_cases {A} (table : Database → gmap Z A) (k : Z) s :
  ∃ o fs',
    refresh table k s = (o, MkSession (stored s) (pending s) fs')
    ∧ (o = Raise SQLAlchemyError
       ∨ ∃ r, table (pending s) !! k = Some r ∧ o = Return (k, r)).
Proof.
  unfold refresh, bind.
  destruct (round_trip_cases s) as (o & fs' & -> & [->| ->]); simpl.
  - destruct (table (pending s) !! k) as [r|] eqn:Hk; eauto 8.
  - eauto.
Qed.

Lemma create_result_ok (result : ResultCreate) (db : Database) fs :
  store_ok fs →
  is_Some (stables db !! ResultBase.stable_id result) →
  is_Some (stages db !! ResultBase.stage_id result) →
  dispatch (create_result result) db fs
  = (Return (next_id (results db), Result_of result),
     set_results <[next_id (results db) := Result_of result]> db).
Proof.
  intros Hok [stable Hstable] [stage Hstage].
  unfold dispatch, create_result, bind.
  rewrite execute_ok by done. simpl. rewrite select_by_id, Hstable. simpl.
  rewrite execute_ok by (simpl; by apply store_ok_tail). simpl.
  rewrite select_by_id, Hstage. simpl.
  commit_step. simpl.
  rewrite refresh_ok by (simpl; by do 3 apply store_ok_tail). simpl.
  by rewrite lookup_insert_eq.
Qed.

(** Whatever the store does, [create_result] either leaves the database as
    it is or adds the new row, and it adds it only with both references
    present. *)
Lemma create_result_stored (result : ResultCreate) (db : Database) fs :
  (dispatch (create_result result) db fs).2 = db
  ∨ (is_Some (stables db !! ResultBase.stable_id result)
     ∧ is_Some (stages db !! ResultBase.stage_id result)
     ∧ (dispatch (create_result result) db fs).2
       = set_results <[next_id (results db) := Result_of result]> db).
Proof.
  unfold dispatch, create_result, bind.
  match goal with
  | |- context [execute ?q (MkSession db db fs)] =>
      destruct (execute_cases q (MkSession db db fs))
        as (? & fs1 & -> & [->| ->])
  end; [|by left]. cbn [pending stored faults]. rewrite select_by_id.
  destruct (stables db !! _) as [stable|] eqn:Hstable; simpl; [|by left].
  match goal with
  | |- context [execute ?q (MkSession db db fs1)] =>
      destruct (execute_cases q (MkSession db db fs1))
        as (? & fs2 & -> & [->| ->])
  end; [|by left]. cbn [pending stored faults]. rewrite select_by_id.
  destruct (stages db !! _) as [stage|] eqn:Hstage; simpl; [|by left].
  match goal with
  | |- context [commit ?s] =>
      destruct (commit_cases s) as (fs3 & [->| ->])
  end; [by left|]. cbn [pending stored faults].
  right. split; [done|]. split; [done|].
  match goal with
  | |- context [refresh ?t ?k ?s] =>
      destruct (refresh_cases t k s) as (? & fs4 & -> & [->|(? & _ & ->)])
  end; done.
Qed.

(** X5: on a store that answers, creating a Result whose stable and stage
    exist returns it under an identifier no stored Result had; a lookup of
    that identifier then returns the same record, and every Result stored
    before is still found as it was. *)
Theorem create_result_then_get
    (result : ResultCreate) (db : Database) (fs fs' : list bool) :
  store_ok fs → store_ok fs' →
  is_Some (stables db !! ResultBase.stable_id result) →
  is_Some (stages db !! ResultBase.stage_id result) →
  ∃ k db',
    dispatch (create_result result) db fs = (Return (k, Result_of result), db')
    ∧ results db !! k = None
    ∧ dispatch (get_result k) db' fs' = (Return (k, Result_of result), db')
    ∧ ∀ j r, results db !! j = Some r →
             dispatch (get_result j) db' fs' = (Return (j, r), db').
Proof.
  intros Hok Hok' Hstable Hstage. eexists _, _.
  split; [by apply create_result_ok|]. split; [apply next_id_fresh|]. split.
  - rewrite (get_result_ok _ _ fs' Hok'). simpl. by rewrite lookup_insert_eq.
  - intros j r Hj. rewrite (get_result_ok _ _ fs' Hok'). simpl.
    rewrite lookup_insert_ne; [by rewrite Hj|].
    intros <-. by rewrite next_id_fresh in Hj.
Qed.

(** X6: creation of a Result keeps the references of the stored Results
    resolving: if every stored Result names a stored Stage and a stored
    Stable, so it is after the request, whatever the store does and whether
    the request returns or raises. *)
Theorem create_result_keeps_references
    (result : ResultCreate) (db : Database) (fs : list bool) :
  references_resolve db →
  references_resolve (dispatch (create_result result) db fs).2.
Proof.
  intros Hdb.
  destruct (create_result_stored result db fs)
    as [->|(Hstable & Hstage & ->)]; [done|].
  unfold references_resolve in *. simpl.
  apply map_Forall_insert_2; [done|]. exact Hdb.
Qed.

(** ** The bulk update of laps, run again *)

Lemma update_laps_ok
    (threshold : Q) (new_laps : Z) (db : Database) (fs : list bool) :
  store_ok fs →
  dispatch (update_laps threshold new_laps) db fs
  = (Return
       (dict [("message",
               VStr (pretty
                       (size (filter
                                (λ r : row Result.t,
                                   (threshold < Result.race_time (cols r))%Q)
                                (results db)))
                     +:+ " results updated."))]),
     set_results (fmap (laps_above threshold new_laps)) db).
Proof.
  intros Hok. unfold dispatch, update_laps, bind.
  rewrite execute_ok by done. cbn [pending stored faults].
  rewrite for_each_setattr_result. cbn [pending stored faults].
  commit_step.
  cbn [pending stored faults]. unfold ret.
  rewrite (length_filter_select
             (λ r : row Result.t, (threshold < Result.race_time (cols r))%Q)).
  do 2 f_equal. unfold set_results. simpl. f_equal.
  apply map_eq. intros k. rewrite lookup_foldl_alter by done.
  rewrite lookup_fmap. unfold laps_above.
  destruct (results db !! k) as [r|] eqn:Hk; simpl.
  - case_decide as Hin.
    + apply (elem_of_fst_filter_select
               (λ r : row Result.t, (threshold < Result.race_time (cols r))%Q))
        in Hin as (x & Hx & Hab).
      rewrite Hk in Hx. simplify_eq. by rewrite decide_True.
    + rewrite decide_False; [done|]. intros Hab. apply Hin.
      apply (elem_of_fst_filter_select
               (λ r : row Result.t, (threshold < Result.race_time (cols r))%Q)).
      by exists r.
  - by case_decide.
Qed.

Lemma laps_above_race_time (threshold : Q) (new_laps : Z) (r : Result.t) :
  Result.race_time (laps_above threshold new_laps r) = Result.race_time r.
Proof. unfold laps_above. by case_decide. Qed.

Lemma laps_above_idemp (threshold : Q) (new_laps : Z) (r : Result.t) :
  laps_above threshold new_laps (laps_above threshold new_laps r)
  = laps_above threshold new_laps r.
Proof. unfold laps_above. repeat case_decide; done. Qed.

(** X7: the bulk update of laps is idempotent: on a store that answers,
    running it again with the same threshold and laps reports the same
    number and leaves the database as the first run left it. *)
Theorem update_laps_idempotent
    (threshold : Q) (new_laps : Z) (db : Database) (fs fs' : list bool) :
  store_ok fs → store_ok fs' →
  ∃ message db',
    dispatch (update_laps threshold new_laps) db fs = (Return message, db')
    ∧ dispatch (update_laps threshold new_laps) db' fs' = (Return message, db').
Proof.
  intros Hok Hok'. eexists _, _. split; [by apply update_laps_ok|].
  rewrite update_laps_ok by done. unfold set_results. simpl.
  rewrite <-map_fmap_compose.
  rewrite (map_fmap_ext (laps_above threshold new_laps
                         ∘ laps_above threshold new_laps)
                        (laps_above threshold new_laps))
    by (intros; apply laps_above_idemp).
  pose (above := λ r : row Result.t,
                   (threshold < Result.race_time (cols r))%Q).
  assert (size (filter above (laps_above threshold new_laps <$> results db))
          = size (filter above (results db))) as Hsize.
  { rewrite (map_filter_fmap above (laps_above threshold new_laps)
               (results db)), map_size_fmap.
    f_equal. apply map_filter_ext. intros k r _. unfold above, cols. simpl.
    by rewrite laps_above_race_time. }
  unfold above in Hsize. by rewrite Hsize.
Qed.

(** ** The two orders of the sorted listing *)

(** X9: when no two stored Results have the same race time, the listing
    sorted downwards is the listing sorted upwards, reversed. *)
Theorem sorted_desc_is_reverse_asc (db : Database) (fs fs' : list bool) :
  store_ok fs → store_ok fs' →
  (∀ k1 r1 k2 r2,
     results db !! k1 = Some r1 → results db !! k2 = Some r2 →
     (Result.race_time r1 == Result.race_time r2)%Q → k1 = k2) →
  ∃ out,
    dispatch (get_sorted_results "asc") db fs = (Return out, db)
    ∧ dispatch (get_sorted_results "desc") db fs' = (Return (reverse out), db).
Proof.
  intros Hok Hok' Hdistinct.
  exists (merge_sort race_time_asc (select (results db))). split.
  { unfold dispatch, get_sorted_results, bind. simpl.
    by rewrite execute_ok by done. }
  unfold dispatch, get_sorted_results, bind. simpl.
  rewrite execute_ok by done. cbn [pending stored]. unfold ret.
  do 2 f_equal.
  apply (StronglySorted_unique_strong race_time_desc).
  - intros [k1 r1] [k2 r2] Hin1 Hin2 H12 H21.
    rewrite merge_sort_Permutation in Hin1.
    rewrite reverse_Permutation, merge_sort_Permutation in Hin2.
    apply elem_of_map_to_list in Hin1, Hin2.
    unfold race_time_desc, cols in H12, H21. simpl in H12, H21.
    assert (k1 = k2) as <-.
    { apply (Hdistinct k1 r1 k2 r2); [done..|]. by apply Qle_antisym. }
    congruence.
  - apply (StronglySorted_merge_sort _).
  - apply (Sorted_StronglySorted _).
    apply (Sorted_reverse race_time_asc), (Sorted_merge_sort _).
  - by rewrite reverse_Permutation, !merge_sort_Permutation.
Qed.

(** ** The join when the references resolve *)

(** X10: when every stored Result names a stored Stage and a stored Stable,
    the listing with details has as many rows as there are stored Results,
    on a store that answers. *)
Theorem join_covers_all_results (db : Database) (fs : list bool) :
  store_ok fs → references_resolve db →
  ∃ out,
    dispatch get_results_with_details db fs = (Return out, db)
    ∧ length out = size (results db).
Proof.
  intros Hok Hdb. eexists. split.
  { unfold dispatch, get_results_with_details, bind.
    by rewrite execute_ok by done. }
  cbn [pending]. rewrite join_query_details.
  rewrite <-(length_map_to_list (results db)). unfold select.
  assert (Forall (λ r : row Result.t, is_Some (details_of db r))
                 (map_to_list (results db))) as Hall.
  { apply Forall_forall. intros [k r] Hin%elem_of_map_to_list.
    destruct (Hdb k r Hin) as [[stage Hstage] [stable Hstable]].
    unfold details_of, cols. simpl. by rewrite Hstage, Hstable. }
  induction Hall as [|r l [d Hd] _ IH]; [done|].
  cbn [omap list_omap]. rewrite Hd. simpl. by rewrite IH.
Qed.

(** ** The reads and creations of the services *)

Ltac swallows_errors_tac :=
  intros fs;
  lazymatch goal with
  | |- store_ok _ → _ =>
      intros Hok; unfold dispatch, try_except, bind;
      rewrite execute_ok by done; cbn [pending stored faults];
      rewrite ?select_by_id;
      repeat match goal with |- context [?m !! ?k] => destruct (m !! k) end;
      done
  | |- ∃ _, _ =>
      unfold dispatch, try_except, bind;
      match goal with
      | |- context [execute ?q (MkSession ?db ?db fs)] =>
          destruct (execute_cases q (MkSession db db fs))
            as (? & ? & -> & [->| ->])
      end; cbn [pending stored faults];
      rewrite ?select_by_id;
      repeat match goal with |- context [?m !! ?k] => destruct (m !! k) end;
      simpl; eauto
  | |- _ = _ => reflexivity
  end.

(** X12: the listing and lookup functions of the three services never
    raise and never write: on a store that answers they return all the rows,
    or the row of the identifier if there is one; on a storage error they
    return the empty list, or [None], as for an empty table or a missing
    row. *)
Theorem services_reads_swallow_errors (k : Z) (db : Database) :
  swallows_errors stage_services.get_all_stages db (select (stages db)) []
  ∧ swallows_errors (stage_services.get_stage_by_id k) db
      ((λ r, (k, r)) <$> stages db !! k) None
  ∧ swallows_errors stable_services.get_all_stables db (select (stables db)) []
  ∧ swallows_errors (stable_services.get_stable_by_id k) db
      ((λ r, (k, r)) <$> stables db !! k) None
  ∧ swallows_errors result_services.get_all_results db (select (results db)) []
  ∧ swallows_errors (result_services.get_result_by_id k) db
      ((λ r, (k, r)) <$> results db !! k) None.
Proof.
  unfold swallows_errors, stage_services.get_all_stages,
    stage_services.get_stage_by_id, stable_services.get_all_stables,
    stable_services.get_stable_by_id, result_services.get_all_results,
    result_services.get_result_by_id.
  repeat apply conj; swallows_errors_tac.
Qed.

Ltac creates_tac :=
  lazymatch goal with
  | |- ∀ fs, store_ok fs → _ =>
      let Hok := fresh "Hok" in
      intros fs Hok; unfold dispatch, try_except, bind;
      cbn [pending stored faults]; commit_step;
      cbn [pending stored faults];
      rewrite refresh_ok by (simpl; by apply store_ok_tail); simpl;
      by rewrite lookup_insert_eq
  | |- ∀ fs, ∃ _ _, _ =>
      intros fs;
      unfold dispatch, try_except, bind; cbn [pending stored faults];
      match goal with
      | |- context [commit ?s] =>
          destruct (commit_cases s) as (? & [->| ->])
      end; cbn [pending stored faults]; [by eauto 10|];
      let Hk := fresh "Hk" in
      match goal with
      | |- context [refresh ?t ?k ?s] =>
          destruct (refresh_cases t k s) as (? & ? & -> & [->|(? & Hk & ->)])
      end; cbn [pending stored faults]; [by eauto 10|];
      simpl in Hk; rewrite lookup_insert_eq in Hk; simplify_eq;
      eauto 10
  | |- ∀ fs, dispatch _ _ (false :: _) = _ =>
      intros fs; unfold dispatch, try_except, bind;
      cbn [pending stored faults];
      rewrite commit_flushes; [reflexivity|done|foreign_keys_tac]
  | |- ∀ fs, _ = _ => intros fs; reflexivity
  | |- _ !! _ = None => apply next_id_fresh
  end.

(** A Result whose stage or stable is missing is not created. *)
Lemma create_result_refused (result_data : ResultCreate) (db : Database) fs :
  stages db !! ResultBase.stage_id result_data = None
  ∨ stables db !! ResultBase.stable_id result_data = None →
  dispatch (result_services.create_result result_data) db fs
  = (Return None, db).
Proof.
  intros Hmiss.
  unfold dispatch, result_services.create_result, try_except, bind, add_result.
  cbn [pending stored faults]. unfold commit, bind.
  match goal with
  | |- context [round_trip ?s] =>
      destruct (round_trip_cases s) as (? & ? & -> & [->| ->])
  end; [|done].
  cbn [pending stored faults]. rewrite decide_False; [done|].
  rewrite foreign_keys_result_added_iff by apply next_id_fresh. simpl.
  intros [[? Hstage] [? Hstable]]. destruct Hmiss; congruence.
Qed.

(** X13: the creation functions of the three services never raise.  On a
    store that answers they store the new row under an identifier that no
    row of the table has, and return it; when the commit raises they return
    [None] and store nothing; when the refresh after the commit raises they
    return [None] although the row is stored, the rollback coming after the
    commit.  For a Result that holds when its stage and its stable are
    stored; when one of them is missing the commit is refused: the creation
    returns [None] and stores nothing, whatever the store does. *)
Theorem services_create_outcomes (db : Database) :
  (∀ stage_data,
     creates_or_reports_none (stage_services.create_stage stage_data)
       stages set_stages db (Stage_of stage_data))
  ∧ (∀ stable_data,
       creates_or_reports_none (stable_services.create_stable stable_data)
         stables set_stables db (Stable_of stable_data))
  ∧ (∀ result_data,
       (is_Some (stages db !! ResultBase.stage_id result_data) →
        is_Some (stables db !! ResultBase.stable_id result_data) →
        creates_or_reports_none (result_services.create_result result_data)
          results set_results db (Result_of result_data))
       ∧ (stages db !! ResultBase.stage_id result_data = None
          ∨ stables db !! ResultBase.stable_id result_data = None →
          ∀ fs, dispatch (result_services.create_result result_data) db fs
                = (Return None, db))).
Proof.
  unfold creates_or_reports_none, stage_services.create_stage,
    stable_services.create_stable.
  split; [|split].
  - intros stage_data. exists (next_id (stages db)). unfold add_stage.
    repeat apply conj; creates_tac.
  - intros stable_data. exists (next_id (stables db)). unfold add_stable.
    repeat apply conj; creates_tac.
  - intros result_data. split.
    + intros Hstage Hstable. exists (next_id (results db)).
      unfold result_services.create_result, add_result.
      repeat apply conj; creates_tac.
    + intros Hmiss fs. by apply create_result_refused.
Qed.

(** ** Delete and update, followed by a lookup and run again *)

Lemma get_stage_by_id_ok (k : Z) (db : Database) :
  ∀ fs, store_ok fs →
        dispatch (stage_services.get_stage_by_id k) db fs
        = (Return ((λ r, (k, r)) <$> stages db !! k), db).
Proof. unfold stage_services.get_stage_by_id. swallows_errors_tac. Qed.

Lemma get_stable_by_id_ok (k : Z) (db : Database) :
  ∀ fs, store_ok fs →
        dispatch (stable_services.get_stable_by_id k) db fs
        = (Return ((λ r, (k, r)) <$> stables db !! k), db).
Proof. unfold stable_services.get_stable_by_id. swallows_errors_tac. Qed.

Lemma get_result_by_id_ok (k : Z) (db : Database) :
  ∀ fs, store_ok fs →
        dispatch (result_services.get_result_by_id k) db fs
        = (Return ((λ r, (k, r)) <$> results db !! k), db).
Proof. unfold result_services.get_result_by_id. swallows_errors_tac. Qed.

(** X14: on a store that answers, after the delete of a Result that has a
    row, or of a Stage or a Stable that has a row which no stored Result
    names, the lookup of that identifier returns [None], a second delete of
    it returns false and changes nothing, and the lookup of any other
    identifier returns what it returned before. *)
Theorem delete_then_get_and_delete
    (k : Z) (db : Database) (fs fs' fs'' : list bool) :
  store_ok fs → store_ok fs' → store_ok fs'' →
  (is_Some (stages db !! k) →
   (∀ j r, results db !! j = Some r → Result.stage_id r ≠ k) →
   ∃ db',
     dispatch (delete_stage k) db fs = (Return true, db')
     ∧ dispatch (stage_services.get_stage_by_id k) db' fs' = (Return None, db')
     ∧ dispatch (delete_stage k) db' fs'' = (Return false, db')
     ∧ ∀ j, j ≠ k →
         dispatch (stage_services.get_stage_by_id j) db' fs'
         = (Return ((λ r, (j, r)) <$> stages db !! j), db'))
  ∧ (is_Some (stables db !! k) →
     (∀ j r, results db !! j = Some r → Result.stable_id r ≠ k) →
     ∃ db',
       dispatch (delete_stable k) db fs = (Return true, db')
       ∧ dispatch (stable_services.get_stable_by_id k) db' fs'
         = (Return None, db')
       ∧ dispatch (delete_stable k) db' fs'' = (Return false, db')
       ∧ ∀ j, j ≠ k →
           dispatch (stable_services.get_stable_by_id j) db' fs'
           = (Return ((λ r, (j, r)) <$> stables db !! j), db'))
  ∧ (is_Some (results db !! k) →
     ∃ db',
       dispatch (delete_result k) db fs = (Return true, db')
       ∧ dispatch (result_services.get_result_by_id k) db' fs'
         = (Return None, db')
       ∧ dispatch (delete_result k) db' fs'' = (Return false, db')
       ∧ ∀ j, j ≠ k →
           dispatch (result_services.get_result_by_id j) db' fs'
           = (Return ((λ r, (j, r)) <$> results db !! j), db')).
Proof.
  intros Hok Hok' Hok''. repeat apply conj; [intros Hk Hfree..|intros Hk].
  - exists (set_stages (delete k) db).
    destruct (delete_stage_spec k db) as (Hdel & _ & _).
    destruct (delete_stage_spec k (set_stages (delete k) db))
      as (_ & Hgone & _).
    split; [by apply Hdel|]. split; [|split].
    + rewrite get_stage_by_id_ok by done. simpl. by rewrite lookup_delete_eq.
    + apply Hgone. simpl. apply lookup_delete_eq.
    + intros j Hj. rewrite get_stage_by_id_ok by done. simpl.
      by rewrite lookup_delete_ne.
  - exists (set_stables (delete k) db).
    destruct (delete_stable_spec k db) as (Hdel & _ & _).
    destruct (delete_stable_spec k (set_stables (delete k) db))
      as (_ & Hgone & _).
    split; [by apply Hdel|]. split; [|split].
    + rewrite get_stable_by_id_ok by done. simpl. by rewrite lookup_delete_eq.
    + apply Hgone. simpl. apply lookup_delete_eq.
    + intros j Hj. rewrite get_stable_by_id_ok by done. simpl.
      by rewrite lookup_delete_ne.
  - exists (set_results (delete k) db).
    destruct (delete_result_spec k db) as (Hdel & _ & _).
    destruct (delete_result_spec k (set_results (delete k) db))
      as (_ & Hgone & _).
    split; [by apply Hdel|]. split; [|split].
    + rewrite get_result_by_id_ok by done. simpl. by rewrite lookup_delete_eq.
    + apply Hgone. simpl. apply lookup_delete_eq.
    + intros j Hj. rewrite get_result_by_id_ok by done. simpl.
      by rewrite lookup_delete_ne.
Qed.

Lemma update_stage_ok (k : Z) (u : StageUpdate.t) (db : Database) fs old :
  store_ok fs → stages db !! k = Some old →
  dispatch (update_stage k u) db fs
  = (Return (Some (k, foldl Stage.setattr old (StageUpdate.items u))),
     set_stages <[k := foldl Stage.setattr old (StageUpdate.items u)]> db).
Proof.
  intros Hok Hk. unfold update_stage. lookup_step Hok. rewrite Hk. simpl.
  rewrite for_each_setattr_stage. simpl.
  commit_step. simpl.
  rewrite refresh_ok by (simpl; by do 2 apply store_ok_tail). simpl.
  unfold set_stages, ret. simpl.
  rewrite !(alter_Some_insert _ _ _ old) by done.
  by rewrite lookup_insert_eq.
Qed.

Lemma update_stable_ok (k : Z) (u : StableUpdate.t) (db : Database) fs old :
  store_ok fs → stables db !! k = Some old →
  dispatch (update_stable k u) db fs
  = (Return (Some (k, foldl Stable.setattr old (StableUpdate.items u))),
     set_stables <[k := foldl Stable.setattr old (StableUpdate.items u)]> db).
Proof.
  intros Hok Hk. unfold update_stable. lookup_step Hok. rewrite Hk. simpl.
  rewrite for_each_setattr_stable. simpl.
  commit_step. simpl.
  rewrite refresh_ok by (simpl; by do 2 apply store_ok_tail). simpl.
  unfold set_stables, ret. simpl.
  rewrite !(alter_Some_insert _ _ _ old) by done.
  by rewrite lookup_insert_eq.
Qed.

(** The references a partial input leaves a Result with are accepted when
    those it sets name stored rows. *)
Lemma ResultUpdate_references_accepted
    (db : Database) (old : Result.t) (u : ResultUpdate.t) :
  (∀ s, ResultUpdate.stage_id u = Some s → is_Some (stages db !! s)) →
  (∀ s, ResultUpdate.stable_id u = Some s → is_Some (stables db !! s)) →
  references_accepted db old (foldl Result.setattr old (ResultUpdate.items u)).
Proof.
  intros Hstage Hstable.
  destruct u as [[?|] [?|] [?|] [?|] [?|] [stable|] [stage|]];
    split; simpl in *; auto.
Qed.

(** Assigning the set fields of a partial input a second time changes
    nothing. *)
Lemma StageUpdate_items_idemp (u : StageUpdate.t) (old : Stage.t) :
  foldl Stage.setattr (foldl Stage.setattr old (StageUpdate.items u))
        (StageUpdate.items u)
  = foldl Stage.setattr old (StageUpdate.items u).
Proof. by destruct u as [[?|] [?|] [?|] [?|] [?|]], old. Qed.

Lemma StableUpdate_items_idemp (u : StableUpdate.t) (old : Stable.t) :
  foldl Stable.setattr (foldl Stable.setattr old (StableUpdate.items u))
        (StableUpdate.items u)
  = foldl Stable.setattr old (StableUpdate.items u).
Proof. by destruct u as [[?|] [?|] [?|] [?|]], old. Qed.

Lemma ResultUpdate_items_idemp (u : ResultUpdate.t) (old : Result.t) :
  foldl Result.setattr (foldl Result.setattr old (ResultUpdate.items u))
        (ResultUpdate.items u)
  = foldl Result.setattr old (ResultUpdate.items u).
Proof. by destruct u as [[?|] [?|] [?|] [?|] [?|] [?|] [?|]], old. Qed.

(** X15: on a store that answers, after the update of an existing row the
    lookup of its identifier returns the row the update returned, and the
    same update run again returns that row again and leaves the database
    as the first left it; for Stage and Stable, and for a Result when the
    stage and the stable that the partial input sets are stored. *)
Theorem update_then_get_and_update
    (k : Z) (db : Database) (fs fs' fs'' : list bool) :
  store_ok fs → store_ok fs' → store_ok fs'' →
  (∀ u : StageUpdate.t, is_Some (stages db !! k) →
     ∃ new db',
       dispatch (update_stage k u) db fs = (Return (Some (k, new)), db')
       ∧ dispatch (stage_services.get_stage_by_id k) db' fs'
         = (Return (Some (k, new)), db')
       ∧ dispatch (update_stage k u) db' fs'' = (Return (Some (k, new)), db'))
  ∧ (∀ u : StableUpdate.t, is_Some (stables db !! k) →
       ∃ new db',
         dispatch (update_stable k u) db fs = (Return (Some (k, new)), db')
         ∧ dispatch (stable_services.get_stable_by_id k) db' fs'
           = (Return (Some (k, new)), db')
         ∧ dispatch (update_stable k u) db' fs''
           = (Return (Some (k, new)), db'))
  ∧ (∀ u : ResultUpdate.t, is_Some (results db !! k) →
       (∀ s, ResultUpdate.stage_id u = Some s → is_Some (stages db !! s)) →
       (∀ s, ResultUpdate.stable_id u = Some s → is_Some (stables db !! s)) →
       ∃ new db',
         dispatch (update_result k u) db fs = (Return (Some (k, new)), db')
         ∧ dispatch (result_services.get_result_by_id k) db' fs'
           = (Return (Some (k, new)), db')
         ∧ dispatch (update_result k u) db' fs''
           = (Return (Some (k, new)), db')).
Proof.
  intros Hok Hok' Hok''.
  repeat apply conj; [intros u [old Hk]..|intros u [old Hk] Hstage Hstable].
  - eexists _, _. split; [by apply update_stage_ok|]. split.
    + rewrite get_stage_by_id_ok by done. simpl. by rewrite lookup_insert_eq.
    + erewrite update_stage_ok; [|done|simpl; apply lookup_insert_eq].
      rewrite StageUpdate_items_idemp. unfold set_stages. simpl.
      by rewrite insert_insert_eq.
  - eexists _, _. split; [by apply update_stable_ok|]. split.
    + rewrite get_stable_by_id_ok by done. simpl. by rewrite lookup_insert_eq.
    + erewrite update_stable_ok; [|done|simpl; apply lookup_insert_eq].
      rewrite StableUpdate_items_idemp. unfold set_stables. simpl.
      by rewrite insert_insert_eq.
  - eexists _, _. split.
    { apply update_result_accepted; [done..|].
      by apply ResultUpdate_references_accepted. }
    split.
    + rewrite get_result_by_id_ok by done. simpl. by rewrite lookup_insert_eq.
    + rewrite (update_result_accepted k u _
                 (foldl Result.setattr old (ResultUpdate.items u)));
        [|done|simpl; apply lookup_insert_eq|].
      * rewrite ResultUpdate_items_idemp. unfold set_results. simpl.
        by rewrite insert_insert_eq.
      * rewrite ResultUpdate_items_idemp. split; by left.
Qed.

(** X16: on a store that answers, an update whose partial input sets no
    field returns the existing row as it is stored and leaves the database
    as it was; for Stage, Stable and Result alike. *)
Theorem update_without_fields_changes_nothing
    (k : Z) (db : Database) (fs : list bool) :
  store_ok fs →
  (∀ old, stages db !! k = Some old →
          dispatch (update_stage k (StageUpdate.Build None None None None None))
                   db fs
          = (Return (Some (k, old)), db))
  ∧ (∀ old, stables db !! k = Some old →
            dispatch (update_stable k (StableUpdate.Build None None None None))
                     db fs
            = (Return (Some (k, old)), db))
  ∧ (∀ old, results db !! k = Some old →
            dispatch
              (update_result k
                 (ResultUpdate.Build None None None None None None None))
              db fs
            = (Return (Some (k, old)), db)).
Proof.
  intros Hok. repeat apply conj; intros old Hk.
  - rewrite (update_stage_ok _ _ _ _ old) by done. simpl.
    unfold set_stages. rewrite insert_id by done. by destruct db.
  - rewrite (update_stable_ok _ _ _ _ old) by done. simpl.
    unfold set_stables. rewrite insert_id by done. by destruct db.
  - rewrite (update_result_accepted _ _ _ old) by (done || split; by left).
    simpl. unfold set_results. rewrite insert_id by done. by destruct db.
Qed.

Ltac update_any_faults for_each_lemma old Hk :=
  unfold dispatch, try_except, bind;
  match goal with
  | |- context [execute ?q (MkSession ?db ?db ?fs)] =>
      destruct (execute_cases q (MkSession db db fs))
        as (? & ? & -> & [->| ->])
  end; cbn [pending stored faults]; [|by eauto 10];
  rewrite select_by_id, Hk; simpl;
  rewrite for_each_lemma; cbn [pending stored faults];
  match goal with
  | |- context [commit ?s] => destruct (commit_cases s) as (? & [->| ->])
  end; cbn [pending stored faults]; [by eauto 10|];
  let Hr := fresh "Hr" in
  match goal with
  | |- context [refresh ?t ?k ?s] =>
      destruct (refresh_cases t k s) as (? & ? & -> & [->|(? & Hr & ->)])
  end; cbn [pending stored faults id fst];
  unfold set_stages, set_stables, set_results in *; simpl in *;
  rewrite ?(alter_Some_insert _ _ _ old) in * by done;
  [by eauto 10|];
  rewrite lookup_insert_eq in Hr; simplify_eq; eauto 10.

(** X17: whatever the store does, the update of an existing row returns
    without raising, and the database is afterwards either as it was or
    holds the row with all the set fields assigned, never with a part of
    them; when the updated row is returned, it is the one stored.  For
    Stage, Stable and Result alike. *)
Theorem update_all_or_nothing (k : Z) (db : Database) (fs : list bool) :
  (∀ (u : StageUpdate.t) old, stages db !! k = Some old →
     let new := foldl Stage.setattr old (StageUpdate.items u) in
     ∃ o db',
       dispatch (update_stage k u) db fs = (Return o, db')
       ∧ (o = None ∧ (db' = db ∨ db' = set_stages <[k := new]> db)
          ∨ o = Some (k, new) ∧ db' = set_stages <[k := new]> db))
  ∧ (∀ (u : StableUpdate.t) old, stables db !! k = Some old →
       let new := foldl Stable.setattr old (StableUpdate.items u) in
       ∃ o db',
         dispatch (update_stable k u) db fs = (Return o, db')
         ∧ (o = None ∧ (db' = db ∨ db' = set_stables <[k := new]> db)
            ∨ o = Some (k, new) ∧ db' = set_stables <[k := new]> db))
  ∧ (∀ (u : ResultUpdate.t) old, results db !! k = Some old →
       let new := foldl Result.setattr old (ResultUpdate.items u) in
       ∃ o db',
         dispatch (update_result k u) db fs = (Return o, db')
         ∧ (o = None ∧ (db' = db ∨ db' = set_results <[k := new]> db)
            ∨ o = Some (k, new) ∧ db' = set_results <[k := new]> db)).
Proof.
  repeat apply conj; intros u old Hk new; subst new.
  - unfold update_stage. update_any_faults for_each_setattr_stage old Hk.
  - unfold update_stable. update_any_faults for_each_setattr_stable old Hk.
  - unfold update_result.
    update_any_faults for_each_setattr_result_attrs old Hk.
Qed.

(** ** Validation of the dict of a payload *)

(** X18: a validated Result or Stable payload is the validation of its own
    dict: the body that [.dict()] gives for it validates, to the same
    record. *)
Theorem validate_dict_round_trip :
  (∀ r : ResultBase.t, ResultBase.validate (ResultBase_dict r) = Some r)
  ∧ (∀ r : StableBase.t, StableBase.validate (StableBase_dict r) = Some r).
Proof.
  split.
  - by intros [].
  - by intros [? ? [?|] [?|]].
Qed.

(** ** The URL of the database *)

Lemma string_app_length (s t : string) :
  String.length (s +:+ t) = (String.length s + String.length t)%nat.
Proof. induction s as [|c s IH]; simpl; [done|]. by rewrite IH. Qed.

Lemma string_app_inv_tail (s1 s2 t : string) :
  s1 +:+ t = s2 +:+ t → s1 = s2.
Proof.
  revert s2. induction s1 as [|c s1 IH]; intros [|c' s2] Heq; simpl in *.
  - done.
  - apply (f_equal String.length) in Heq.
    rewrite ?string_app_length in Heq. simpl in Heq.
    rewrite ?string_app_length in Heq. lia.
  - apply (f_equal String.length) in Heq.
    rewrite ?string_app_length in Heq. simpl in Heq.
    rewrite ?string_app_length in Heq. lia.
  - injection Heq as -> Heq. f_equal. by apply IH.
Qed.

(** X19: the URL the engine is created with is the [database_url] of the
    settings exactly when the configured port is 5432: the engine takes the
    port 5432 whatever [db_port] says. *)
Theorem database_url_ignores_port (settings : Settings.t) :
  database_url settings = Settings.database_url settings
  ↔ Settings.db_port settings = 5432.
Proof.
  unfold database_url, Settings.database_url. split.
  - intros Heq. repeat apply (inj (String.append _)) in Heq.
    change (":5432/" +:+ Settings.db_name settings)
      with (":" +:+ "5432" +:+ "/" +:+ Settings.db_name settings) in Heq.
    apply (inj (String.append _)) in Heq.
    apply (string_app_inv_tail "5432" (pretty (Settings.db_port settings)))
      in Heq.
    apply (inj pretty). by rewrite <-Heq.
  - by intros ->.
Qed.

(** ** A storage error after the commit of a creation *)

(** X20: in the creation handlers the refresh comes after the commit: when
    the store answers up to the commit and raises at the refresh, the
    request raises the storage error although the new row is stored. *)
Theorem create_raises_after_commit (db : Database) (fs : list bool) :
  (∀ stage,
     dispatch (create_stage stage) db (false :: true :: fs)
     = (Raise SQLAlchemyError,
        set_stages <[next_id (stages db) := Stage_of stage]> db))
  ∧ (∀ stable,
       dispatch (create_stable stable) db (false :: true :: fs)
       = (Raise SQLAlchemyError,
          set_stables <[next_id (stables db) := Stable_of stable]> db))
  ∧ (∀ result,
       is_Some (stables db !! ResultBase.stable_id result) →
       is_Some (stages db !! ResultBase.stage_id result) →
       dispatch (create_result result) db (false :: false :: false :: true :: fs)
       = (Raise SQLAlchemyError,
          set_results <[next_id (results db) := Result_of result]> db)).
Proof.
  repeat apply conj.
  - intros stage. unfold dispatch, create_stage, bind, add_stage.
    cbn [pending stored faults].
    rewrite commit_flushes; [done|done|foreign_keys_tac].
  - intros stable. unfold dispatch, create_stable, bind, add_stable.
    cbn [pending stored faults].
    rewrite commit_flushes; [done|done|foreign_keys_tac].
  - intros result Hstable Hstage.
    pose proof Hstable as [stable Hstable']. pose proof Hstage as [stage Hstage'].
    unfold dispatch, create_result, bind, execute, round_trip.
    cbn [pending stored faults bind]. unfold bind.
    cbn [pending stored faults]. rewrite select_by_id, Hstable'. simpl.
    rewrite select_by_id, Hstage'. cbn [scalar_one_or_none truthy add_result].
    simpl. rewrite commit_flushes; [done|done|foreign_keys_tac].
Qed.

(** ** The further properties on the scenario *)

Lemma get_by_id_found_or_404_witness :
  store_ok []
  ∧ dispatch (get_result 2) db_scenario [] = (Return (2, second_result), db_scenario)
  ∧ dispatch (get_stage 99) db_scenario []
    = (Raise (HTTPException 404 "Stage not found"), db_scenario).
Proof.
  split; [exact store_ok_nil|].
  destruct (get_by_id_found_or_404 2 db_scenario [] store_ok_nil)
    as (Hresult & _ & _).
  destruct (get_by_id_found_or_404 99 db_scenario [] store_ok_nil)
    as (_ & Hstage & _).
  split; [exact Hresult | exact Hstage].
Defined.

Lemma listings_complete_witness :
  store_ok []
  ∧ ∃ out, dispatch get_results db_scenario [] = (Return out, db_scenario)
           ∧ NoDup out
           ∧ (∀ k r, (k, r) ∈ out ↔ results db_scenario !! k = Some r)
           ∧ length out = size (results db_scenario).
Proof.
  split; [exact store_ok_nil|].
  exact (proj1 (listings_complete db_scenario [] store_ok_nil)).
Defined.

Lemma create_then_get_witness :
  store_ok [] ∧ store_ok [false]
  ∧ ∃ k db',
      dispatch (create_stage monza_create) db_scenario []
      = (Return (k, Stage_of monza_create), db')
      ∧ stages db_scenario !! k = None
      ∧ dispatch (get_stage k) db' [false]
        = (Return (k, Stage_of monza_create), db')
      ∧ ∀ j r, stages db_scenario !! j = Some r →
               dispatch (get_stage j) db' [false] = (Return (j, r), db').
Proof.
  assert (store_ok [false]) as Hok by repeat constructor.
  split; [exact store_ok_nil|]. split; [exact Hok|].
  exact (proj1 (create_then_get db_scenario [] [false] store_ok_nil Hok)
           monza_create).
Defined.

Lemma create_result_then_get_witness :
  store_ok [] ∧ is_Some (stables db_references !! 1)
  ∧ is_Some (stages db_references !! 1)
  ∧ ∃ k db',
      dispatch (create_result max_result) db_references []
      = (Return (k, Result_of max_result), db')
      ∧ results db_references !! k = None
      ∧ dispatch (get_result k) db' [] = (Return (k, Result_of max_result), db')
      ∧ ∀ j r, results db_references !! j = Some r →
               dispatch (get_result j) db' [] = (Return (j, r), db').
Proof.
  assert (is_Some (stables db_references !! 1)) as Hstable by (by eexists).
  assert (is_Some (stages db_references !! 1)) as Hstage by (by eexists).
  split; [exact store_ok_nil|]. split; [exact Hstable|].
  split; [exact Hstage|].
  exact (create_result_then_get max_result db_references [] []
           store_ok_nil store_ok_nil Hstable Hstage).
Defined.

Lemma references_resolve_two_results : references_resolve db_two_results.
Proof.
  unfold references_resolve. apply map_Forall_insert_2; [by split; eexists|].
  apply map_Forall_singleton. by split; eexists.
Defined.

Lemma create_result_keeps_references_witness :
  references_resolve db_two_results
  ∧ references_resolve
      (dispatch (create_result max_result) db_two_results [false; false]).2.
Proof.
  split; [exact references_resolve_two_results|].
  exact (create_result_keeps_references max_result db_two_results
           [false; false] references_resolve_two_results).
Defined.

Lemma update_laps_idempotent_witness :
  store_ok [] ∧
  ∃ message db',
    dispatch (update_laps (92 # 1) 60) db_scenario [] = (Return message, db')
    ∧ dispatch (update_laps (92 # 1) 60) db' [] = (Return message, db').
Proof.
  split; [exact store_ok_nil|].
  exact (update_laps_idempotent (92 # 1) 60 db_scenario [] []
           store_ok_nil store_ok_nil).
Defined.

Lemma distinct_race_times_scenario :
  ∀ k1 r1 k2 r2,
    results db_scenario !! k1 = Some r1 → results db_scenario !! k2 = Some r2 →
    (Result.race_time r1 == Result.race_time r2)%Q → k1 = k2.
Proof.
  intros k1 r1 k2 r2 H1 H2 Heq. unfold db_scenario in *. simpl in *.
  repeat match goal with
         | H : <[_ := _]> _ !! ?k = Some _ |- _ =>
             apply lookup_insert_Some in H as [[<- <-]|[? H]]
         | H : {[_ := _]} !! ?k = Some _ |- _ =>
             apply lookup_singleton_Some in H as [<- <-]
         end; try done; by vm_compute in Heq.
Defined.

Lemma sorted_desc_is_reverse_asc_witness :
  store_ok []
  ∧ ∃ out,
      dispatch (get_sorted_results "asc") db_scenario [] = (Return out, db_scenario)
      ∧ dispatch (get_sorted_results "desc") db_scenario []
        = (Return (reverse out), db_scenario).
Proof.
  split; [exact store_ok_nil|].
  exact (sorted_desc_is_reverse_asc db_scenario [] [] store_ok_nil store_ok_nil
           distinct_race_times_scenario).
Defined.

Lemma join_covers_all_results_witness :
  store_ok [] ∧ references_resolve db_two_results
  ∧ ∃ out,
      dispatch get_results_with_details db_two_results []
      = (Return out, db_two_results)
      ∧ length out = size (results db_two_results).
Proof.
  split; [exact store_ok_nil|]. split; [exact references_resolve_two_results|].
  exact (join_covers_all_results db_two_results [] store_ok_nil
           references_resolve_two_results).
Defined.

Lemma services_reads_swallow_errors_witness :
  store_ok []
  ∧ dispatch (result_services.get_result_by_id 2) db_scenario []
    = (Return (Some (2, second_result)), db_scenario)
  ∧ dispatch (result_services.get_result_by_id 2) db_scenario [true]
    = (Return None, db_scenario).
Proof.
  split; [exact store_ok_nil|].
  destruct (services_reads_swallow_errors 2 db_scenario)
    as (_ & _ & _ & _ & _ & Hok & Hfail & _).
  split; [exact (Hok [] store_ok_nil) | exact (Hfail [])].
Defined.

Lemma services_create_outcomes_witness :
  creates_or_reports_none (stage_services.create_stage monza_create)
    stages set_stages db_references (Stage_of monza_create)
  ∧ is_Some (stages db_references !! 1) ∧ is_Some (stables db_references !! 1)
  ∧ creates_or_reports_none (result_services.create_result max_result)
      results set_results db_references (Result_of max_result)
  ∧ stages db_references !! 99 = None
  ∧ dispatch
      (result_services.create_result
         (ResultBase.Build "Max" (952 # 10) 53 1 2 1 99))
      db_references [false]
    = (Return None, db_references).
Proof.
  destruct (services_create_outcomes db_references) as (Hstage & _ & Hresult).
  assert (is_Some (stages db_references !! 1)) as Hs1 by (by eexists).
  assert (is_Some (stables db_references !! 1)) as Hs2 by (by eexists).
  split; [exact (Hstage monza_create)|].
  split; [exact Hs1|]. split; [exact Hs2|].
  split; [exact (proj1 (Hresult max_result) Hs1 Hs2)|].
  split; [reflexivity|].
  exact (proj2 (Hresult (ResultBase.Build "Max" (952 # 10) 53 1 2 1 99))
           (or_introl eq_refl) [false]).
Defined.

Lemma delete_then_get_and_delete_witness :
  store_ok [] ∧ is_Some (results db_scenario !! 3)
  ∧ (∃ db',
       dispatch (delete_result 3) db_scenario [] = (Return true, db')
       ∧ dispatch (result_services.get_result_by_id 3) db' []
         = (Return None, db')
       ∧ dispatch (delete_result 3) db' [] = (Return false, db')
       ∧ ∀ j, j ≠ 3 →
           dispatch (result_services.get_result_by_id j) db' []
           = (Return ((λ r, (j, r)) <$> results db_scenario !! j), db'))
  ∧ is_Some (stages db_references !! 1)
  ∧ (∀ j r, results db_references !! j = Some r → Result.stage_id r ≠ 1)
  ∧ ∃ db',
      dispatch (delete_stage 1) db_references [] = (Return true, db')
      ∧ dispatch (stage_services.get_stage_by_id 1) db' [] = (Return None, db')
      ∧ dispatch (delete_stage 1) db' [] = (Return false, db')
      ∧ ∀ j, j ≠ 1 →
          dispatch (stage_services.get_stage_by_id j) db' []
          = (Return ((λ r, (j, r)) <$> stages db_references !! j), db').
Proof.
  assert (is_Some (results db_scenario !! 3)) as Hsome by (by eexists).
  assert (is_Some (stages db_references !! 1)) as Hstage by (by eexists).
  assert (∀ j r, results db_references !! j = Some r → Result.stage_id r ≠ 1)
    as Hfree.
  { intros j r Hj. simpl in Hj. by rewrite lookup_empty in Hj. }
  split; [exact store_ok_nil|]. split; [exact Hsome|].
  destruct (delete_then_get_and_delete 3 db_scenario [] [] []
              store_ok_nil store_ok_nil store_ok_nil) as (_ & _ & Hresult).
  destruct (delete_then_get_and_delete 1 db_references [] [] []
              store_ok_nil store_ok_nil store_ok_nil) as (Hdel & _ & _).
  split; [exact (Hresult Hsome)|].
  split; [exact Hstage|]. split; [exact Hfree|].
  exact (Hdel Hstage Hfree).
Defined.

Lemma update_then_get_and_update_witness :
  store_ok [] ∧ is_Some (results db_two_results !! 2)
  ∧ is_Some (stables db_two_results !! 1)
  ∧ ∃ new db',
      dispatch
        (update_result 2
           (ResultUpdate.Build None None (Some 50) None None (Some 1) None))
        db_two_results []
      = (Return (Some (2, new)), db')
      ∧ dispatch (result_services.get_result_by_id 2) db' []
        = (Return (Some (2, new)), db')
      ∧ dispatch
          (update_result 2
             (ResultUpdate.Build None None (Some 50) None None (Some 1) None))
          db' []
        = (Return (Some (2, new)), db').
Proof.
  assert (is_Some (results db_two_results !! 2)) as Hsome by (by eexists).
  assert (is_Some (stables db_two_results !! 1)) as Hstable by (by eexists).
  split; [exact store_ok_nil|]. split; [exact Hsome|]. split; [exact Hstable|].
  destruct (update_then_get_and_update 2 db_two_results [] [] []
              store_ok_nil store_ok_nil store_ok_nil) as (_ & _ & Hresult).
  apply (Hresult _ Hsome).
  - intros s Hs. simpl in Hs. discriminate Hs.
  - intros s Hs. simpl in Hs. injection Hs as <-. exact Hstable.
Defined.

Lemma update_without_fields_changes_nothing_witness :
  store_ok [] ∧ stages db_scenario !! 1 = Some monza
  ∧ dispatch (update_stage 1 (StageUpdate.Build None None None None None))
             db_scenario []
    = (Return (Some (1, monza)), db_scenario).
Proof.
  split; [exact store_ok_nil|]. split; [reflexivity|].
  destruct (update_without_fields_changes_nothing 1 db_scenario []
              store_ok_nil) as (Hstage & _ & _).
  exact (Hstage monza eq_refl).
Defined.

Lemma update_all_or_nothing_witness :
  stables db_scenario !! 1 = Some red_bull
  ∧ ∃ o db',
      dispatch
        (update_stable 1
           (StableUpdate.Build None None (Some (Some "Honda")) None))
        db_scenario [false; true]
      = (Return o, db')
      ∧ (o = None
         ∧ (db' = db_scenario
            ∨ db' = set_stables
                      <[1 := Stable.Build "Red Bull" "Austria"
                                          (Some "Honda") None]>
                      db_scenario)
         ∨ o = Some (1, Stable.Build "Red Bull" "Austria" (Some "Honda") None)
           ∧ db' = set_stables
                     <[1 := Stable.Build "Red Bull" "Austria"
                                         (Some "Honda") None]>
                     db_scenario).
Proof.
  split; [reflexivity|].
  destruct (update_all_or_nothing 1 db_scenario [false; true])
    as (_ & Hstable & _).
  exact (Hstable (StableUpdate.Build None None (Some (Some "Honda")) None)
           red_bull eq_refl).
Defined.

Lemma create_raises_after_commit_witness :
  is_Some (stables db_references !! 1) ∧ is_Some (stages db_references !! 1)
  ∧ dispatch (create_result max_result) db_references
             [false; false; false; true]
    = (Raise SQLAlchemyError,
       set_results <[1 := Result_of max_result]> db_references).
Proof.
  assert (is_Some (stables db_references !! 1)) as Hstable by (by eexists).
  assert (is_Some (stages db_references !! 1)) as Hstage by (by eexists).
  split; [exact Hstable|]. split; [exact Hstage|].
  destruct (create_raises_after_commit db_references []) as (_ & _ & Hresult).
  exact (Hresult max_result Hstable Hstage).
Defined.

(** ** The populate script *)

Lemma store_ok_head (fss : list (list bool)) :
  Forall store_ok fss → store_ok (default [] (head fss)).
Proof. destruct 1; [constructor | done]. Qed.

Lemma Forall_tail {A} (P : A → Prop) (l : list A) :
  Forall P l → Forall P (tail l).
Proof. destruct 1; [constructor | done]. Qed.

Lemma next_id_keys_upto {A} (m : nat) (table : gmap Z A) :
  keys_upto m table → next_id table = Z.of_nat m + 1.
Proof.
  intros Hkeys. unfold next_id.
  assert (map_fold (λ k (_ : A) acc, Z.max k acc) 0 table ≤ Z.of_nat m) as Hle.
  { cut (∀ n : Z, 0 ≤ n → (∀ k : Z, is_Some (table !! k) → k ≤ n) →
                  map_fold (λ k (_ : A) acc, Z.max k acc) 0 table ≤ n).
    { intros H. apply H; [lia|]. intros k Hk. apply Hkeys in Hk. lia. }
    apply (map_fold_weak_ind
             (λ (r : Z) (t : gmap Z A),
                ∀ n : Z, 0 ≤ n → (∀ k : Z, is_Some (t !! k) → k ≤ n) → r ≤ n)).
    - intros n Hn _. done.
    - intros i x t r _ IH n Hn Hall.
      assert (i ≤ n).
      { apply Hall. rewrite lookup_insert_eq. by eexists. }
      assert (r ≤ n); [|lia].
      apply IH; [done|]. intros k Hk. apply Hall.
      destruct (decide (i = k)) as [->|?];
        [rewrite lookup_insert_eq; by eexists | by rewrite lookup_insert_ne]. }
  destruct m as [|m].
  - assert (0 ≤ map_fold (λ k (_ : A) acc, Z.max k acc) 0 table); [|lia].
    apply (map_fold_weak_ind (λ (r : Z) (_ : gmap Z A), 0 ≤ r)); [done|].
    intros. lia.
  - pose proof (next_id_above table (Z.of_nat (S m))) as Habove.
    unfold next_id in Habove.
    assert (is_Some (table !! Z.of_nat (S m))) as Hsome by (apply Hkeys; lia).
    specialize (Habove Hsome). lia.
Qed.

Lemma keys_upto_insert {A} (m : nat) (table : gmap Z A) (x : A) :
  keys_upto m table → keys_upto (S m) (<[next_id table := x]> table).
Proof.
  intros Hkeys k. rewrite (next_id_keys_upto m) by done.
  destruct (decide (Z.of_nat m + 1 = k)) as [<-|Hne].
  - rewrite lookup_insert_eq. split; [lia | by eexists].
  - rewrite lookup_insert_ne by done. rewrite (Hkeys k). lia.
Qed.

(** The loop of the stages on a store that answers. *)
Lemma create_stages_ok (fake : nat → StageCreate) (n i : nat) fss db (m : nat) :
  Forall store_ok fss →
  ∃ db' fss',
    populate_database.post_each
      populate_database.post_stage populate_database.Stage_added
      populate_database.Failed_to_add_stage fake i n fss db
    = ((false, (λ j, populate_database.Stage_added (fake j)) <$> seq i n, db'),
       fss')
    ∧ Forall store_ok fss'
    ∧ stables db' = stables db ∧ results db' = results db
    ∧ size (stages db') = (size (stages db) + n)%nat
    ∧ (keys_upto m (stages db) → keys_upto (m + n) (stages db')).
Proof.
  revert i fss db m. induction n as [|n IH]; intros i fss db m Hok.
  { exists db, fss. rewrite !Nat.add_0_r. do 5 (split; [done|]). done. }
  cbn [populate_database.post_each].
  unfold populate_database.post_stage at 1.
  rewrite create_stage_ok by (by apply store_ok_head).
  cbn [populate_database.respond populate_database.status_code].
  rewrite decide_True by done.
  destruct (IH (S i) (tail fss)
              (set_stages <[next_id (stages db) := Stage_of (fake i)]> db)
              (S m) (Forall_tail _ _ Hok))
    as (db' & fss' & -> & Hok' & Hstables & Hresults & Hsize & Hkeys).
  exists db', fss'. split; [done|]. split; [done|].
  split; [done|]. split; [done|]. split.
  - rewrite Hsize. simpl.
    rewrite map_size_insert_None by apply next_id_fresh. lia.
  - intros Hm. rewrite Nat.add_succ_r. apply Hkeys. simpl.
    by apply keys_upto_insert.
Qed.

(** The loop of the stables on a store that answers: every payload is
    stored, and the answer to each is 200. *)
Lemma create_stables_ok (fake : nat → StableCreate) (n i : nat) fss db (m : nat) :
  Forall store_ok fss →
  ∃ db' fss',
    populate_database.post_each
      populate_database.post_stable populate_database.Stable_added
      populate_database.Failed_to_add_stable fake i n fss db
    = ((false,
        (λ _, populate_database.Failed_to_add_stable
                (populate_database.MkResponse 200 true)) <$> seq i n,
        db'),
       fss')
    ∧ Forall store_ok fss'
    ∧ stages db' = stages db ∧ results db' = results db
    ∧ size (stables db') = (size (stables db) + n)%nat
    ∧ (keys_upto m (stables db) → keys_upto (m + n) (stables db')).
Proof.
  revert i fss db m. induction n as [|n IH]; intros i fss db m Hok.
  { exists db, fss. rewrite !Nat.add_0_r. do 5 (split; [done|]). done. }
  cbn [populate_database.post_each].
  unfold populate_database.post_stable at 1.
  rewrite create_stable_ok by (by apply store_ok_head).
  cbn [populate_database.respond populate_database.status_code
       populate_database.is_json].
  rewrite decide_False by done.
  destruct (IH (S i) (tail fss)
              (set_stables <[next_id (stables db) := Stable_of (fake i)]> db)
              (S m) (Forall_tail _ _ Hok))
    as (db' & fss' & -> & Hok' & Hstages & Hresults & Hsize & Hkeys).
  exists db', fss'. split; [done|]. split; [done|].
  split; [done|]. split; [done|]. split.
  - rewrite Hsize. simpl.
    rewrite map_size_insert_None by apply next_id_fresh. lia.
  - intros Hm. rewrite Nat.add_succ_r. apply Hkeys. simpl.
    by apply keys_upto_insert.
Qed.

(** The loop of the results on a store that answers, when the references
    of every payload exist. *)
Lemma create_results_ok (fake : nat → ResultCreate) (n i : nat) fss db :
  Forall store_ok fss →
  (∀ j, is_Some (stables db !! ResultBase.stable_id (fake j))
        ∧ is_Some (stages db !! ResultBase.stage_id (fake j))) →
  ∃ db' fss',
    populate_database.post_each
      populate_database.post_result populate_database.Result_added
      populate_database.Failed_to_add_result fake i n fss db
    = ((false,
        (λ _, populate_database.Failed_to_add_result
                (populate_database.MkResponse 200 true)) <$> seq i n,
        db'),
       fss')
    ∧ Forall store_ok fss'
    ∧ stages db' = stages db ∧ stables db' = stables db
    ∧ size (results db') = (size (results db) + n)%nat
    ∧ (references_resolve db → references_resolve db').
Proof.
  revert i fss db. induction n as [|n IH]; intros i fss db Hok Hrefs.
  { exists db, fss. rewrite !Nat.add_0_r. do 5 (split; [done|]). done. }
  cbn [populate_database.post_each].
  unfold populate_database.post_result at 1.
  destruct (Hrefs i) as [Hstable Hstage].
  rewrite create_result_ok by (done || by apply store_ok_head).
  cbn [populate_database.respond populate_database.status_code
       populate_database.is_json].
  rewrite decide_False by done.
  destruct (IH (S i) (tail fss)
              (set_results <[next_id (results db) := Result_of (fake i)]> db)
              (Forall_tail _ _ Hok) Hrefs)
    as (db' & fss' & -> & Hok' & Hstages & Hstables & Hsize & Hres).
  exists db', fss'. split; [done|]. split; [done|].
  split; [done|]. split; [done|]. split.
  - rewrite Hsize. simpl.
    rewrite map_size_insert_None by apply next_id_fresh. lia.
  - intros Hdb. apply Hres. unfold references_resolve in *. simpl.
    by apply map_Forall_insert_2.
Qed.

(** The routes of the stables and of the results never answer 201. *)
Lemma post_stable_status (data : StableCreate) (db : Database) fs :
  populate_database.status_code (populate_database.post_stable data db fs).1
  ≠ 201.
Proof.
  unfold populate_database.post_stable, dispatch, create_stable, bind,
    add_stable.
  cbn [pending stored faults].
  match goal with
  | |- context [commit ?s] => destruct (commit_cases s) as (? & [->| ->])
  end; cbn [pending stored faults]; [done|].
  match goal with
  | |- context [refresh ?t ?k ?s] =>
      destruct (refresh_cases t k s) as (? & ? & -> & [->|(? & _ & ->)])
  end; done.
Qed.

Lemma post_result_status (data : ResultCreate) (db : Database) fs :
  populate_database.status_code (populate_database.post_result data db fs).1
  ≠ 201.
Proof.
  unfold populate_database.post_result, dispatch, create_result, bind.
  match goal with
  | |- context [execute ?q (MkSession db db fs)] =>
      destruct (execute_cases q (MkSession db db fs))
        as (? & fs1 & -> & [->| ->])
  end; [|done]. cbn [pending stored faults]. rewrite select_by_id.
  destruct (stables db !! _) as [stable|]; simpl; [|done].
  match goal with
  | |- context [execute ?q (MkSession db db fs1)] =>
      destruct (execute_cases q (MkSession db db fs1))
        as (? & fs2 & -> & [->| ->])
  end; [|done]. cbn [pending stored faults]. rewrite select_by_id.
  destruct (stages db !! _) as [stage|]; simpl; [|done].
  match goal with
  | |- context [commit ?s] => destruct (commit_cases s) as (fs3 & [->| ->])
  end; [done|]. cbn [pending stored faults].
  match goal with
  | |- context [refresh ?t ?k ?s] =>
      destruct (refresh_cases t k s) as (? & fs4 & -> & [->|(? & _ & ->)])
  end; done.
Qed.

Lemma post_each_never_added {A}
    (post : A → Database → list bool → populate_database.Response * Database)
    (added : A → populate_database.printed)
    (failed : populate_database.Response → populate_database.printed)
    (fake : nat → A) (n i : nat) fss db :
  (∀ data db fs, populate_database.status_code (post data db fs).1 ≠ 201) →
  Forall (λ line, ∃ response, line = failed response)
         (populate_database.post_each post added failed fake i n fss db).1.1.2.
Proof.
  intros Hstatus. revert i fss db.
  induction n as [|n IH]; intros i fss db; [constructor|].
  cbn [populate_database.post_each].
  specialize (Hstatus (fake i) db (default [] (head fss))).
  destruct (post (fake i) db (default [] (head fss))) as [response db'].
  simpl in Hstatus. rewrite decide_False by done.
  destruct (populate_database.is_json response); [|constructor].
  specialize (IH (S i) (tail fss) db').
  destruct (populate_database.post_each _ _ _ _ _ _ _ _)
    as [[[raised lines] db''] fss'].
  simpl in *. constructor; [by eexists | done].
Qed.

Lemma fmap_const_seq {A} (x : A) (i n : nat) :
  (λ _, x) <$> seq i n = replicate n x.
Proof. revert i. induction n as [|n IH]; intros i; [done|]. simpl. by rewrite IH. Qed.

(** X21: the populate script never reports a stable or a result as added,
    whatever the store does: only the route of the stages answers 201, so
    every line that [create_stables] and [create_results] print is the one
    of a failure.  On a store that answers, each of the [n] stables is
    stored all the same, and reported as failed with status 200. *)
Theorem populate_reports_stables_and_results_failed
    (n : nat) (db : Database) (fss : list (list bool)) :
  (∀ fake,
     Forall (λ line, ∃ response,
               line = populate_database.Failed_to_add_stable response)
            (populate_database.create_stables n fake fss db).1.1.2)
  ∧ (∀ fake,
       Forall (λ line, ∃ response,
                 line = populate_database.Failed_to_add_result response)
              (populate_database.create_results n fake fss db).1.1.2)
  ∧ (∀ fake, Forall store_ok fss →
       ∃ db' fss',
         populate_database.create_stables n fake fss db
         = ((false,
             replicate n (populate_database.Failed_to_add_stable
                            (populate_database.MkResponse 200 true)),
             db'), fss')
         ∧ size (stables db') = (size (stables db) + n)%nat).
Proof.
  split; [|split].
  - intros fake. apply post_each_never_added, post_stable_status.
  - intros fake. apply post_each_never_added, post_result_status.
  - intros fake Hok.
    destruct (create_stables_ok fake n 0 fss db 0 Hok)
      as (db' & fss' & Heq & _ & _ & _ & Hsize & _).
    exists db', fss'. split; [|done].
    unfold populate_database.create_stables. rewrite Heq.
    by rewrite fmap_const_seq.
Qed.

Lemma keys_upto_empty {A} : keys_upto 0 (∅ : gmap Z A).
Proof.
  intros k. rewrite lookup_empty. split; [by intros [? ?] | lia].
Qed.

(** X22: run against an empty database on a store that answers, with the
    references of the random results drawn between 1 and the number of
    stages and of stables, the populate script stores 10 stages, 5 stables
    and 50 results, each result naming a stored stage and a stored stable;
    it prints every stage as added and every stable and result as failed,
    and ends with the closing line. *)
Theorem populate_empty_database
    (fake_stage : nat → StageCreate) (fake_stable : nat → StableCreate)
    (fake_result : nat → ResultCreate) (fss : list (list bool)) :
  Forall store_ok fss →
  (∀ j, 1 ≤ ResultBase.stage_id (fake_result j)
            ≤ Z.of_nat populate_database.num_stages
        ∧ 1 ≤ ResultBase.stable_id (fake_result j)
              ≤ Z.of_nat populate_database.num_stables) →
  ∃ db',
    populate_database.populate_database fake_stage fake_stable fake_result fss
      (MkDatabase ∅ ∅ ∅)
    = (false,
       populate_database.message "Adding stages..."
       :: ((λ j, populate_database.Stage_added (fake_stage j)) <$> seq 0 10)
       ++ populate_database.message "Adding stables..."
       :: replicate 5 (populate_database.Failed_to_add_stable
                         (populate_database.MkResponse 200 true))
       ++ populate_database.message "Adding results..."
       :: replicate 50 (populate_database.Failed_to_add_result
                          (populate_database.MkResponse 200 true))
       ++ [populate_database.message "Database population complete!"],
       db')
    ∧ size (stages db') = 10%nat
    ∧ size (stables db') = 5%nat
    ∧ size (results db') = 50%nat
    ∧ references_resolve db'.
Proof.
  intros Hok Hrange. unfold populate_database.populate_database.
  destruct (create_stages_ok fake_stage populate_database.num_stages 0 fss
              (MkDatabase ∅ ∅ ∅) 0 Hok)
    as (db1 & fss1 & Heq1 & Hok1 & Hstables1 & Hresults1 & Hsize1 & Hkeys1).
  unfold populate_database.create_stages. rewrite Heq1.
  destruct (create_stables_ok fake_stable populate_database.num_stables 0 fss1
              db1 0 Hok1)
    as (db2 & fss2 & Heq2 & Hok2 & Hstages2 & Hresults2 & Hsize2 & Hkeys2).
  unfold populate_database.create_stables. rewrite Heq2.
  assert (∀ j, is_Some (stables db2 !! ResultBase.stable_id (fake_result j))
               ∧ is_Some (stages db2 !! ResultBase.stage_id (fake_result j)))
    as Hrefs.
  { intros j. destruct (Hrange j) as [Hstage Hstable]. split.
    - apply Hkeys2; [|done]. rewrite Hstables1. apply keys_upto_empty.
    - rewrite Hstages2. apply Hkeys1; [|done]. apply keys_upto_empty. }
  destruct (create_results_ok fake_result populate_database.num_results 0 fss2
              db2 Hok2 Hrefs)
    as (db3 & fss3 & Heq3 & _ & Hstages3 & Hstables3 & Hsize3 & Hres3).
  unfold populate_database.create_results. rewrite Heq3.
  exists db3. rewrite !fmap_const_seq. split; [done|].
  split; [by rewrite Hstages3, Hstages2, Hsize1|].
  split; [by rewrite Hstables3, Hsize2, Hstables1|].
  split; [by rewrite Hsize3, Hresults2, Hresults1|].
  apply Hres3. unfold references_resolve. rewrite Hresults2, Hresults1.
  apply map_Forall_empty.
Qed.

Lemma populate_reports_stables_and_results_failed_witness :
  Forall store_ok [[false]; []]
  ∧ ∃ db' fss',
      populate_database.create_stables 2 (λ _, red_bull_create) [[false]; []]
        db_references
      = ((false,
          replicate 2 (populate_database.Failed_to_add_stable
                         (populate_database.MkResponse 200 true)),
          db'), fss')
      ∧ size (stables db') = (size (stables db_references) + 2)%nat.
Proof.
  assert (Forall store_ok [[false]; []]) as Hok by repeat constructor.
  split; [exact Hok|].
  destruct (populate_reports_stables_and_results_failed 2 db_references
              [[false]; []]) as (_ & _ & Hstables).
  exact (Hstables (λ _, red_bull_create) Hok).
Defined.

Lemma populate_empty_database_witness :
  Forall store_ok []
  ∧ (∀ j : nat, 1 ≤ ResultBase.stage_id max_result
                    ≤ Z.of_nat populate_database.num_stages
                ∧ 1 ≤ ResultBase.stable_id max_result
                      ≤ Z.of_nat populate_database.num_stables)
  ∧ ∃ db',
      (populate_database.populate_database
         (λ _, monza_create) (λ _, red_bull_create) (λ _, max_result) []
         (MkDatabase ∅ ∅ ∅)).1.1 = false
      ∧ (populate_database.populate_database
           (λ _, monza_create) (λ _, red_bull_create) (λ _, max_result) []
           (MkDatabase ∅ ∅ ∅)).2 = db'
      ∧ size (results db') = 50%nat
      ∧ references_resolve db'.
Proof.
  assert (∀ j : nat, 1 ≤ ResultBase.stage_id max_result
                         ≤ Z.of_nat populate_database.num_stages
                     ∧ 1 ≤ ResultBase.stable_id max_result
                           ≤ Z.of_nat populate_database.num_stables) as Hrange.
  { intros _. split; split; by vm_compute. }
  assert (Forall store_ok []) as Hok by constructor.
  split; [exact Hok|]. split; [exact Hrange|].
  destruct (populate_empty_database
              (λ _, monza_create) (λ _, red_bull_create) (λ _, max_result) []
              Hok Hrange)
    as (db' & -> & _ & _ & Hsize & Hres).
  exists db'. split; [reflexivity|]. split; [reflexivity|].
  split; [exact Hsize | exact Hres].
Defined.

(** ** The response model and the stored Results *)

Lemma update_laps_stored
    (threshold : Q) (new_laps : Z) (db : Database) (fs : list bool) :
  (dispatch (update_laps threshold new_laps) db fs).2 = db
  ∨ (dispatch (update_laps threshold new_laps) db fs).2
    = set_results (fmap (laps_above threshold new_laps)) db.
Proof.
  assert (store_ok []) as Hnil by constructor.
  pose proof (update_laps_ok threshold new_laps db [] Hnil) as Hok.
  revert Hok. unfold dispatch, update_laps, bind.
  rewrite (execute_ok _ (MkSession db db [])) by constructor.
  cbn [pending stored faults tail]. rewrite for_each_setattr_result.
  cbn [pending stored faults].
  rewrite commit_ok; [|by constructor|by apply foreign_keys_foldl_alter].
  cbn [pending stored faults]. unfold ret. intros [= _ Hdb].
  match goal with
  | |- context [execute ?q (MkSession db db fs)] =>
      destruct (execute_cases q (MkSession db db fs))
        as (? & ? & -> & [->| ->])
  end; [|by left].
  cbn [pending stored faults]. rewrite for_each_setattr_result.
  cbn [pending stored faults]. unfold commit, bind.
  match goal with
  | |- context [round_trip ?s] =>
      destruct (round_trip_cases s) as (? & ? & -> & [->| ->])
  end; [|by left].
  cbn [pending stored faults].
  rewrite decide_True by (by apply foreign_keys_foldl_alter). right.
  cbn [pending stored faults snd]. unfold set_results. simpl. f_equal.
  exact Hdb.
Qed.

Lemma validate_Result_of (k : Z) (result : ResultCreate) :
  ResultRead.validate (k, Result_of result)
  = Some (ResultRead.Build k result).
Proof. by destruct result. Qed.

Lemma validate_laps_above (threshold : Q) (new_laps : Z) (k : Z) (r : Result.t) :
  is_Some (ResultRead.validate (k, r)) →
  is_Some (ResultRead.validate (k, laps_above threshold new_laps r)).
Proof.
  unfold laps_above. case_decide; [|done].
  unfold ResultRead.validate. simpl.
  destruct (Result.position r), (Result.pit_stops r); simpl; done.
Qed.

(** X23: what [create_result] returns validates against the response
    model as the payload with its identifier; and [create_result] and
    [update_laps] keep every stored Result valid for the response model,
    whatever the store does. *)
Theorem results_stay_serialisable
    (result : ResultCreate) (threshold : Q) (new_laps : Z)
    (db : Database) (fs : list bool) :
  results_serialise db →
  results_serialise (dispatch (create_result result) db fs).2
  ∧ results_serialise (dispatch (update_laps threshold new_laps) db fs).2
  ∧ (store_ok fs →
     is_Some (stables db !! ResultBase.stable_id result) →
     is_Some (stages db !! ResultBase.stage_id result) →
     ∃ k row db',
       dispatch (create_result result) db fs = (Return (k, row), db')
       ∧ ResultRead.validate (k, row) = Some (ResultRead.Build k result)).
Proof.
  intros Hdb. split; [|split].
  - destruct (create_result_stored result db fs) as [->|(_ & _ & ->)]; [done|].
    unfold results_serialise in *. simpl.
    apply map_Forall_insert_2; [|done]. by rewrite validate_Result_of.
  - destruct (update_laps_stored threshold new_laps db fs) as [->| ->]; [done|].
    unfold results_serialise in *. simpl.
    intros k r' Hk. apply lookup_fmap_Some in Hk as (r & <- & Hr).
    apply validate_laps_above. by apply (Hdb k r).
  - intros Hok Hstable Hstage. eexists _, _, _.
    split; [by apply create_result_ok|]. apply validate_Result_of.
Qed.

Lemma results_serialise_two_results : results_serialise db_two_results.
Proof.
  unfold results_serialise. apply map_Forall_insert_2; [by eexists|].
  apply map_Forall_singleton. by eexists.
Defined.

Lemma results_stay_serialisable_witness :
  results_serialise db_two_results
  ∧ results_serialise
      (dispatch (create_result max_result) db_two_results []).2
  ∧ results_serialise
      (dispatch (update_laps (92 # 1) 60) db_two_results [false; true]).2.
Proof.
  split; [exact results_serialise_two_results|].
  destruct (results_stay_serialisable max_result (92 # 1) 60 db_two_results []
              results_serialise_two_results) as (Hcreate & _ & _).
  destruct (results_stay_serialisable max_result (92 # 1) 60 db_two_results
              [false; true] results_serialise_two_results) as (_ & Hlaps & _).
  split; [exact Hcreate | exact Hlaps].
Defined.
